(** * Kanban board: client-side state synchronisation and permission model

    A shallow embedding of the task-board component
    (frontend_kanban/src/components/kanban/KanbanBoard.tsx), of the API
    client (frontend_kanban/src/services/api.ts), of the authentication
    context (contexts/AuthContext.tsx) and of the types they share
    (frontend_kanban/src/types/index.ts).

    React state is modelled by explicit state passing.  An [async] handler
    is split at its [await]: the part that runs before the request is
    issued returns the new component state together with a record of what
    the suspended handler keeps in its closure; the part that runs when
    the promise settles takes that record, the outcome of the request and
    the component state at that later moment. *)

From stdpp Require Import base strings list gmap pretty.
From Stdlib Require Import ZArith.

Local Open Scope string_scope.
Local Open Scope Z_scope.

(** ** types/index.ts *)

Inductive TaskStatus := TO_DO | IN_PROGRESS | DONE.
Inductive TaskPriority := LOW | MEDIUM | HIGH.

#[global] Instance TaskStatus_eq_dec : EqDecision TaskStatus.
Proof. solve_decision. Defined.
#[global] Instance TaskPriority_eq_dec : EqDecision TaskPriority.
Proof. solve_decision. Defined.

(** [interface Task].  Identifiers are JavaScript numbers holding database
    keys; they are modelled as integers.  [x | null] and optional fields
    are options. *)
Record Task := mkTask {
  id : Z;
  title : string;
  description : string;
  project : Z;
  project_name : string;
  status : TaskStatus;
  priority : TaskPriority;
  assigned_to : option Z;
  assigned_to_username : option string;
  due_date : option string;
  created_at : string;
  updated_at : string;
  comments_count : option Z
}.

#[global] Instance Task_eq_dec : EqDecision Task.
Proof. solve_decision. Defined.

(** [interface UpdateTaskData]: every field is optional. *)
Record UpdateTaskData := mkUpdateTaskData {
  upd_title : option string;
  upd_description : option string;
  upd_status : option TaskStatus;
  upd_priority : option TaskPriority;
  upd_assigned_to : option Z;
  upd_due_date : option string
}.

(** The object literal [{ status: newStatus }]. *)
Definition status_only (newStatus : TaskStatus) : UpdateTaskData :=
  {| upd_title := None; upd_description := None; upd_status := Some newStatus;
     upd_priority := None; upd_assigned_to := None; upd_due_date := None |}.

(** The spread [{ ...t, status: s }]: a copy of [t] whose [status] is [s]. *)
Definition with_status (t : Task) (s : TaskStatus) : Task :=
  {| id := id t; title := title t; description := description t;
     project := project t; project_name := project_name t;
     status := s;
     priority := priority t; assigned_to := assigned_to t;
     assigned_to_username := assigned_to_username t;
     due_date := due_date t; created_at := created_at t;
     updated_at := updated_at t; comments_count := comments_count t |}.

(** [interface User]. *)
Module User.
Record t := mk {
  id : Z;
  username : string;
  email : string;
  first_name : string;
  last_name : string;
  date_joined : string;
  is_staff : option bool;
  is_active : option bool;
  is_superuser : option bool;
  last_login : option string
}.
End User.

(** [interface Project]. *)
Module Project.
Record t := mk {
  id : Z;
  name : string;
  description : string;
  owner : Z;
  owner_username : string;
  members : list Z;
  member_usernames : list string;
  created_at : string;
  tasks_count : option Z
}.
End Project.

(** [interface AuthTokens]. *)
Module AuthTokens.
Record t := mk {
  access : string;
  refresh : string
}.
End AuthTokens.

(** [interface LoginCredentials]. *)
Module LoginCredentials.
Record t := mk {
  username : string;
  password : string
}.
End LoginCredentials.

(** [interface ProjectWithCreator]; [owner] is a number or an object. *)
Module ProjectWithCreator.
Record person := mkPerson {
  person_id : Z;
  person_username : string;
  person_email : string;
  person_first_name : string;
  person_last_name : string
}.
Record t := mk {
  id : Z;
  name : string;
  description : string;
  created_at : string;
  owner : option (Z + person);
  created_by : option person;
  members_count : option Z;
  tasks_count : option Z
}.
End ProjectWithCreator.

(** ** JavaScript values and settled promises *)

Module Js.

(** A response body as the client sees it after axios has parsed it.  The
    elements of an array are never inspected by the client, which hands
    them on under the TypeScript type of the endpoint: they are kept
    abstract, of type [A].  A number stands for itself when it is an
    integer; any other number behaves, for the truthiness test, as a
    non-zero integer. *)
#[warnings="-register-all"]
Inductive Value (A : Type) :=
  | Undefined
  | Null
  | Bool (b : bool)
  | Number (n : Z)
  | String (s : string)
  | Array (items : list A)
  | Object (fields : gmap string (Value A)).
Arguments Undefined {A}.
Arguments Null {A}.
Arguments Bool {A} b.
Arguments Number {A} n.
Arguments String {A} s.
Arguments Array {A} items.
Arguments Object {A} fields.

(** ToBoolean. *)
Definition truthy {A} (v : Value A) : bool :=
  match v with
  | Undefined | Null => false
  | Bool b => b
  | Number n => negb (bool_decide (n = 0))
  | String s => negb (bool_decide (s = ""))
  | Array _ | Object _ => true
  end.

(** The two property names the client looks for in a list response. *)
Inductive PropName := results | data.

Definition key (p : PropName) : string :=
  match p with results => "results" | data => "data" end.

(** What a [try] catches or a promise is rejected with: an axios error,
    with [error.response.status] when the server answered, or a
    [TypeError] raised by the language. *)
Inductive Error :=
  | AxiosError (response_status : option Z)
  | TypeError.

(** A settled promise. *)
Inductive Outcome (A : Type) :=
  | Resolved (a : A)
  | Rejected (e : Error).
Arguments Resolved {A} a.
Arguments Rejected {A} e.

(** [Array.isArray(v)]. *)
Definition isArray {A} (v : Value A) : bool :=
  match v with Array _ => true | _ => false end.

(** The array a value is, once [Array.isArray] has said it is one. *)
Definition items {A} (v : Value A) : list A :=
  match v with Array l => l | _ => [] end.

(** [p in v].  The operator throws a [TypeError] when its right operand
    is not an object.  Neither name is an index, ["length"], or a member
    of [Array.prototype] or [Object.prototype]. *)
Definition has_property {A} (p : PropName) (v : Value A) : Outcome bool :=
  match v with
  | Object m => Resolved (bool_decide (is_Some (m !! key p)))
  | Array _ => Resolved false
  | Undefined | Null | Bool _ | Number _ | String _ => Rejected TypeError
  end.

(** [v.p].  Reading a property of [null] or [undefined] throws; a
    primitive is boxed and has no such property. *)
Definition get {A} (p : PropName) (v : Value A) : Outcome (Value A) :=
  match v with
  | Object m => Resolved (default Undefined (m !! key p))
  | Array _ | Bool _ | Number _ | String _ => Resolved Undefined
  | Undefined | Null => Rejected TypeError
  end.

(** Sequencing of computations that may throw. *)
Definition bind {A B} (o : Outcome A) (k : A → Outcome B) : Outcome B :=
  match o with
  | Resolved a => k a
  | Rejected e => Rejected e
  end.

(** [a && b] in a condition: [b] is evaluated only when [a] is true. *)
Definition and_then (a : bool) (b : Outcome bool) : Outcome bool :=
  if a then b else Resolved false.

End Js.

Notation "'let*' x := o 'in' k" := (Js.bind o (λ x, k))
  (at level 10, x name, o at level 100, k at level 200).

(** ** services/api.ts *)

Module ApiClient.

(** The part of an axios request configuration the client logic reads or
    writes: method, url, body (for the calls modelled here a flat object
    whose fields are strings or [null]), the [Authorization] header and
    the [_retry] mark the response interceptor puts on it. *)
Record RequestConfig := mkConfig {
  method : string;
  url : string;
  body : list (string * option string);
  Authorization : option string;
  _retry : bool
}.

Definition set_Authorization (h : string) (c : RequestConfig) : RequestConfig :=
  {| method := method c; url := url c; body := body c;
     Authorization := Some h; _retry := _retry c |}.

Definition set_retry (c : RequestConfig) : RequestConfig :=
  {| method := method c; url := url c; body := body c;
     Authorization := Authorization c; _retry := true |}.

(** The browser around the client: [localStorage] and
    [window.location.href].  [wire] records, latest first, every request
    the axios instance has put on the network, and [refresh_posts] counts
    the calls of the bare [axios.post] to the refresh endpoint; both are
    observations added by the model, the code reads neither. *)
Record Browser := mkBrowser {
  localStorage : gmap string string;
  location_href : string;
  wire : list RequestConfig;
  refresh_posts : nat
}.

Definition getItem (k : string) (w : Browser) : option string := localStorage w !! k.

Definition setItem (k v : string) (w : Browser) : Browser :=
  {| localStorage := <[k := v]> (localStorage w); location_href := location_href w;
     wire := wire w; refresh_posts := refresh_posts w |}.

Definition removeItem (k : string) (w : Browser) : Browser :=
  {| localStorage := delete k (localStorage w); location_href := location_href w;
     wire := wire w; refresh_posts := refresh_posts w |}.

Definition set_location_href (h : string) (w : Browser) : Browser :=
  {| localStorage := localStorage w; location_href := h;
     wire := wire w; refresh_posts := refresh_posts w |}.

Definition put_on_wire (c : RequestConfig) (w : Browser) : Browser :=
  {| localStorage := localStorage w; location_href := location_href w;
     wire := c :: wire w; refresh_posts := refresh_posts w |}.

Definition count_refresh_post (w : Browser) : Browser :=
  {| localStorage := localStorage w; location_href := location_href w;
     wire := wire w; refresh_posts := S (refresh_posts w) |}.

(** Truthiness of what [localStorage.getItem] returns ([null] or a string). *)
Definition truthy_item (o : option string) : bool :=
  match o with
  | Some s => negb (bool_decide (s = ""))
  | None => false
  end.

(** What comes back for a request: a response with its status and parsed
    body, or nothing (time-out, network failure). *)
Inductive Reply (B : Type) :=
  | Response (status : Z) (data : B)
  | NoResponse.
Arguments Response {B} status data.
Arguments NoResponse {B}.

(** The default [validateStatus] of axios: 2xx resolves. *)
Definition validateStatus (status : Z) : bool :=
  bool_decide (200 ≤ status) && bool_decide (status < 300).

Section Client.

(** The server is any function of the request and of everything that
    happened before it (the browser state holds the history of the
    requests).  [B] is the type argument of [this.client.get<B>]. *)
Context {B : Type}.
Variable server : Browser → RequestConfig → Reply B.

(** The refresh endpoint as reached by the bare [axios.post]: given the
    refresh token sent, the [access] field of the response, or a failure
    of anything inside the [try] before its [return]. *)
Variable refresh_endpoint : Browser → string → Js.Outcome string.

(** The request interceptor. *)
Definition request_interceptor (config : RequestConfig) (w : Browser) : RequestConfig :=
  if truthy_item (getItem "access_token" w) then
    let token := default "" (getItem "access_token" w) in
    set_Authorization ("Bearer " +:+ token) config
  else config.

(** [error.response?.status] of the error axios builds from a reply. *)
Definition response_status (r : Reply B) : option Z :=
  match r with
  | Response status _ => Some status
  | NoResponse => None
  end.

(** The error handler of the response interceptor.  [originalRequest]
    is [error.config], the configuration of the request that failed,
    which axios always attaches; [status] is [error.response?.status].
    [self] is [this.client], which the handler calls to send the request
    again.
    The promise of [return this.client(originalRequest)] is not awaited
    inside the [try], so its rejection is not caught there; a rejection
    of the refresh call is. *)
Definition error_interceptor
    (self : RequestConfig → Browser → option (Js.Outcome (Z * B) * Browser))
    (status : option Z) (originalRequest : RequestConfig) (w : Browser)
  : option (Js.Outcome (Z * B) * Browser) :=
  if bool_decide (status = Some 401) && negb (_retry originalRequest) then
    let originalRequest := set_retry originalRequest in
    if truthy_item (getItem "refresh_token" w) then
      let refreshToken := default "" (getItem "refresh_token" w) in
      match refresh_endpoint w refreshToken with
      | Js.Resolved access =>
          let w := setItem "access_token" access (count_refresh_post w) in
          let originalRequest :=
            set_Authorization ("Bearer " +:+ access) originalRequest in
          self originalRequest w
      | Js.Rejected _ =>
          let w := removeItem "access_token" (count_refresh_post w) in
          let w := removeItem "refresh_token" w in
          let w := set_location_href "/login" w in
          Some (Js.Rejected (Js.AxiosError status), w)
      end
    else Some (Js.Rejected (Js.AxiosError status), w)
  else Some (Js.Rejected (Js.AxiosError status), w).

(** [this.client(config)]: request interceptor, network, response
    interceptors.  The error handler may call [this.client] again; the
    recursion is bounded by [fuel], and the result is [None] only when
    the fuel runs out. *)
Fixpoint client (fuel : nat) (config : RequestConfig) (w : Browser)
  : option (Js.Outcome (Z * B) * Browser) :=
  match fuel with
  | O => None
  | S fuel =>
      let config := request_interceptor config w in
      let reply := server w config in
      let w := put_on_wire config w in
      match reply with
      | Response status data =>
          if validateStatus status then Some (Js.Resolved (status, data), w)
          else error_interceptor (client fuel) (Some status) config w
      | NoResponse => error_interceptor (client fuel) None config w
      end
  end.

(** What the caller gets for a request that is sent once and not sent
    again (used to state the properties of [client]). *)
Definition settle (reply : Reply B) : Js.Outcome (Z * B) :=
  match reply with
  | Response status data =>
      if validateStatus status then Js.Resolved (status, data)
      else Js.Rejected (Js.AxiosError (Some status))
  | NoResponse => Js.Rejected (Js.AxiosError None)
  end.

End Client.

(** A fresh configuration, as [this.client.get(url)] and its siblings
    build it. *)
Definition request (m u : string) (b : list (string * option string)) : RequestConfig :=
  {| method := m; url := u; body := b; Authorization := None; _retry := false |}.

(** [await] on [this.client...] followed by the rest of the method. *)
Definition then_ {B C} (r : option (Js.Outcome (Z * B) * Browser))
    (k : B → Js.Outcome C) : option (Js.Outcome C * Browser) :=
  match r with
  | None => None
  | Some (Js.Resolved (_, response_data), w) => Some (k response_data, w)
  | Some (Js.Rejected e, w) => Some (Js.Rejected e, w)
  end.

(** The statements of [getProjects] after the [await], on [response.data]. *)
Definition getProjects_return (response_data : Js.Value Project.t)
  : Js.Outcome (list Project.t) :=
  if Js.isArray response_data then Js.Resolved (Js.items response_data)
  else
    let* c1 :=
      Js.and_then (Js.truthy response_data)
        (let* h := Js.has_property Js.results response_data in
         Js.and_then h
           (let* r := Js.get Js.results response_data in Js.Resolved (Js.isArray r))) in
    if c1 then
      let* r := Js.get Js.results response_data in Js.Resolved (Js.items r)
    else
      let* c2 :=
        Js.and_then (Js.truthy response_data)
          (let* h := Js.has_property Js.data response_data in
           Js.and_then h
             (let* r := Js.get Js.data response_data in Js.Resolved (Js.isArray r))) in
      if c2 then
        let* r := Js.get Js.data response_data in Js.Resolved (Js.items r)
      else Js.Resolved [].

(** The statements of [getProjectTasks] after the [await]. *)
Definition getProjectTasks_return (response_data : Js.Value Task)
  : Js.Outcome (list Task) :=
  if Js.isArray response_data then Js.Resolved (Js.items response_data)
  else
    let* c1 :=
      Js.and_then (Js.truthy response_data)
        (let* h := Js.has_property Js.results response_data in
         Js.and_then h
           (let* r := Js.get Js.results response_data in Js.Resolved (Js.isArray r))) in
    if c1 then
      let* r := Js.get Js.results response_data in Js.Resolved (Js.items r)
    else
      let* c2 :=
        Js.and_then (Js.truthy response_data)
          (let* h := Js.has_property Js.data response_data in
           Js.and_then h
             (let* r := Js.get Js.data response_data in Js.Resolved (Js.isArray r))) in
      if c2 then
        let* r := Js.get Js.data response_data in Js.Resolved (Js.items r)
      else Js.Resolved [].

(** The object [getAdminUsers] returns. *)
Record AdminUsers := mkAdminUsers {
  users : list User.t;
  users_total : nat;
  active_users : nat;
  staff_users : nat
}.

(** Truthiness of an optional boolean field. *)
Definition truthy_flag (b : option bool) : bool := default false b.

(** The statements of [getAdminUsers] after the [await]; here and in
    the two functions below [response.data] is used as the array its
    type says it is. *)
Definition getAdminUsers_return (response_data : list User.t) : AdminUsers :=
  let users := response_data in
  {| users := users;
     users_total := length users;
     active_users := length (List.filter (λ user, truthy_flag (User.is_active user)) users);
     staff_users := length (List.filter (λ user, truthy_flag (User.is_staff user)) users) |}.

(** The object [getAdminProjects] returns. *)
Record AdminProjects := mkAdminProjects {
  projects : list ProjectWithCreator.t;
  projects_total : nat;
  projects_with_tasks : nat;
  projects_with_members : nat
}.

(** [n || 0] on an optional number. *)
Definition or_zero (n : option Z) : Z :=
  match n with
  | Some n => if bool_decide (n = 0) then 0 else n
  | None => 0
  end.

(** The statements of [getAdminProjects] after the [await]. *)
Definition getAdminProjects_return (response_data : list ProjectWithCreator.t)
  : AdminProjects :=
  let projects := response_data in
  {| projects := projects;
     projects_total := length projects;
     projects_with_tasks :=
       length (List.filter
                 (λ project, bool_decide (or_zero (ProjectWithCreator.tasks_count project) > 0))
                 projects);
     projects_with_members :=
       length (List.filter
                 (λ project, bool_decide (or_zero (ProjectWithCreator.members_count project) > 0))
                 projects) |}.

(** The object [getAdminTasks] returns. *)
Record AdminTasks := mkAdminTasks {
  tasks : list Task;
  tasks_total : nat;
  todo_tasks : nat;
  in_progress_tasks : nat;
  done_tasks : nat
}.

(** The statements of [getAdminTasks] after the [await]. *)
Definition getAdminTasks_return (response_data : list Task) : AdminTasks :=
  let tasks := response_data in
  {| tasks := tasks;
     tasks_total := length tasks;
     todo_tasks := length (List.filter (λ task, bool_decide (status task = TO_DO)) tasks);
     in_progress_tasks :=
       length (List.filter (λ task, bool_decide (status task = IN_PROGRESS)) tasks);
     done_tasks := length (List.filter (λ task, bool_decide (status task = DONE)) tasks) |}.

Section Methods.

Variable refresh_endpoint : Browser → string → Js.Outcome string.

Definition getProjects (server : Browser → RequestConfig → Reply (Js.Value Project.t))
    (fuel : nat) (w : Browser) : option (Js.Outcome (list Project.t) * Browser) :=
  then_ (client server refresh_endpoint fuel (request "get" "/projects/" []) w)
        getProjects_return.

Definition getProjectTasks (server : Browser → RequestConfig → Reply (Js.Value Task))
    (fuel : nat) (projectId : Z) (w : Browser)
  : option (Js.Outcome (list Task) * Browser) :=
  then_ (client server refresh_endpoint fuel
           (request "get" ("/projects/" +:+ pretty projectId +:+ "/tasks/") []) w)
        getProjectTasks_return.

(** [refreshToken]: the response body is [{ access: string }]; [B] is the
    type of its [access] field. *)
Definition refreshToken (server : Browser → RequestConfig → Reply string)
    (fuel : nat) (w : Browser) : option (Js.Outcome string * Browser) :=
  let refreshToken := getItem "refresh_token" w in
  then_ (client server refresh_endpoint fuel
           (request "post" "/auth/refresh/" [("refresh", refreshToken)]) w)
        Js.Resolved.

(** [login]. *)
Definition login (server : Browser → RequestConfig → Reply AuthTokens.t)
    (fuel : nat) (credentials : LoginCredentials.t) (w : Browser)
  : option (Js.Outcome AuthTokens.t * Browser) :=
  then_ (client server refresh_endpoint fuel
           (request "post" "/auth/login/"
              [("username", Some (LoginCredentials.username credentials));
               ("password", Some (LoginCredentials.password credentials))]) w)
        Js.Resolved.

(** [getMe]. *)
Definition getMe (server : Browser → RequestConfig → Reply User.t)
    (fuel : nat) (w : Browser) : option (Js.Outcome User.t * Browser) :=
  then_ (client server refresh_endpoint fuel (request "get" "/auth/me/" []) w)
        Js.Resolved.

Definition getAdminUsers (server : Browser → RequestConfig → Reply (list User.t))
    (fuel : nat) (w : Browser) : option (Js.Outcome AdminUsers * Browser) :=
  then_ (client server refresh_endpoint fuel (request "get" "/admin/users/" []) w)
        (λ response_data, Js.Resolved (getAdminUsers_return response_data)).

Definition getAdminProjects
    (server : Browser → RequestConfig → Reply (list ProjectWithCreator.t))
    (fuel : nat) (w : Browser) : option (Js.Outcome AdminProjects * Browser) :=
  then_ (client server refresh_endpoint fuel (request "get" "/admin/projects/" []) w)
        (λ response_data, Js.Resolved (getAdminProjects_return response_data)).

Definition getAdminTasks (server : Browser → RequestConfig → Reply (list Task))
    (fuel : nat) (w : Browser) : option (Js.Outcome AdminTasks * Browser) :=
  then_ (client server refresh_endpoint fuel (request "get" "/admin/tasks/" []) w)
        (λ response_data, Js.Resolved (getAdminTasks_return response_data)).

End Methods.

End ApiClient.

(** ** Errors thrown again after [apiClient.handleError] *)

Module Handled.

(** [throw new Error(apiClient.handleError(error))]: the message is
    computed from the error caught, which is what is kept here. *)
Inductive Thrown := NewError (caught : Js.Error).

(** How an [async] function that throws such errors ends. *)
Inductive Result (A : Type) :=
  | Returned (a : A)
  | Threw (t : Thrown).
Arguments Returned {A} a.
Arguments Threw {A} t.

End Handled.

(** ** contexts/AuthContext.tsx *)

Module AuthContext.

Import ApiClient.

(** The [useState] cells of [AuthProvider]. *)
Record State := mkState {
  user : option User.t;
  isAuthenticated : bool;
  isLoading : bool
}.

Definition setUser (u : option User.t) (st : State) : State :=
  {| user := u; isAuthenticated := isAuthenticated st; isLoading := isLoading st |}.

Definition setIsAuthenticated (b : bool) (st : State) : State :=
  {| user := user st; isAuthenticated := b; isLoading := isLoading st |}.

(** [logout]. *)
Definition logout (st : State) (w : Browser) : State * Browser :=
  let w := removeItem "access_token" w in
  let w := removeItem "refresh_token" w in
  let st := setUser None st in
  let st := setIsAuthenticated false st in
  (st, w).

(** [refreshToken]: on failure log out and throw the error again. *)
Definition refreshToken
    (refresh_endpoint : Browser → string → Js.Outcome string)
    (server : Browser → RequestConfig → Reply string)
    (fuel : nat) (st : State) (w : Browser)
  : option (Js.Outcome unit * State * Browser) :=
  match ApiClient.refreshToken refresh_endpoint server fuel w with
  | None => None
  | Some (Js.Resolved access, w) =>
      Some (Js.Resolved (), st, setItem "access_token" access w)
  | Some (Js.Rejected error, w) =>
      let '(st, w) := logout st w in
      Some (Js.Rejected error, st, w)
  end.

Definition setIsLoading (b : bool) (st : State) : State :=
  {| user := user st; isAuthenticated := isAuthenticated st; isLoading := b |}.

(** Initial values of the cells. *)
Definition initial : State :=
  {| user := None; isAuthenticated := false; isLoading := true |}.

(** [checkAuthStatus], run to completion. *)
Definition checkAuthStatus
    (refresh_endpoint : Browser → string → Js.Outcome string)
    (server : Browser → RequestConfig → Reply User.t)
    (fuel : nat) (st : State) (w : Browser) : option (State * Browser) :=
  if truthy_item (getItem "access_token" w) then
    match ApiClient.getMe refresh_endpoint server fuel w with
    | None => None
    | Some (Js.Resolved userData, w) =>
        let st := setUser (Some userData) st in
        let st := setIsAuthenticated true st in
        Some (setIsLoading false st, w)
    | Some (Js.Rejected _, w) =>
        let w := removeItem "access_token" w in
        let w := removeItem "refresh_token" w in
        Some (setIsLoading false st, w)
    end
  else Some (setIsLoading false st, w).

(** [login], run to completion. *)
Definition login
    (refresh_endpoint : Browser → string → Js.Outcome string)
    (login_server : Browser → RequestConfig → Reply AuthTokens.t)
    (me_server : Browser → RequestConfig → Reply User.t)
    (fuel : nat) (credentials : LoginCredentials.t) (st : State) (w : Browser)
  : option (Handled.Result unit * State * Browser) :=
  let st := setIsLoading true st in
  match ApiClient.login refresh_endpoint login_server fuel credentials w with
  | None => None
  | Some (Js.Rejected error, w) =>
      Some (Handled.Threw (Handled.NewError error), setIsLoading false st, w)
  | Some (Js.Resolved tokens, w) =>
      let w := setItem "access_token" (AuthTokens.access tokens) w in
      let w := setItem "refresh_token" (AuthTokens.refresh tokens) w in
      match ApiClient.getMe refresh_endpoint me_server fuel w with
      | None => None
      | Some (Js.Rejected error, w) =>
          Some (Handled.Threw (Handled.NewError error), setIsLoading false st, w)
      | Some (Js.Resolved userData, w) =>
          let st := setUser (Some userData) st in
          let st := setIsAuthenticated true st in
          Some (Handled.Returned (), setIsLoading false st, w)
      end
  end.

End AuthContext.

(** ** KanbanBoard.tsx: component state *)

Module Board.

(** The [useState] cells of [KanbanBoard]. *)
Record State := mkState {
  tasks : list Task;
  loading : bool;
  error : string;
  activeTask : option Task;
  showCreateTaskModal : bool;
  showTaskDetailsModal : bool;
  selectedTask : option Task
}.

(** Initial values of the cells. *)
Definition initial : State :=
  {| tasks := []; loading := true; error := ""; activeTask := None;
     showCreateTaskModal := false; showTaskDetailsModal := false;
     selectedTask := None |}.

(** [setTasks(prev => f(prev))]; [setTasks(v)] is [setTasks (const v)]. *)
Definition setTasks (f : list Task → list Task) (st : State) : State :=
  {| tasks := f (tasks st); loading := loading st; error := error st;
     activeTask := activeTask st;
     showCreateTaskModal := showCreateTaskModal st;
     showTaskDetailsModal := showTaskDetailsModal st;
     selectedTask := selectedTask st |}.

Definition setLoading (b : bool) (st : State) : State :=
  {| tasks := tasks st; loading := b; error := error st;
     activeTask := activeTask st;
     showCreateTaskModal := showCreateTaskModal st;
     showTaskDetailsModal := showTaskDetailsModal st;
     selectedTask := selectedTask st |}.

Definition setError (msg : string) (st : State) : State :=
  {| tasks := tasks st; loading := loading st; error := msg;
     activeTask := activeTask st;
     showCreateTaskModal := showCreateTaskModal st;
     showTaskDetailsModal := showTaskDetailsModal st;
     selectedTask := selectedTask st |}.

Definition setActiveTask (a : option Task) (st : State) : State :=
  {| tasks := tasks st; loading := loading st; error := error st;
     activeTask := a;
     showCreateTaskModal := showCreateTaskModal st;
     showTaskDetailsModal := showTaskDetailsModal st;
     selectedTask := selectedTask st |}.

(** [tasks.find(t => t.id === taskId)]: the first task with that id. *)
Definition find_task (taskId : Z) (l : list Task) : option Task :=
  List.find (λ t, bool_decide (id t = taskId)) l.

(** [prev.map(t => t.id === taskId ? { ...t, status: s } : t)], the
    updater passed to [setTasks] by the optimistic update and by the
    rollback alike. *)
Definition move_status (taskId : Z) (s : TaskStatus) (prev : list Task) : list Task :=
  (λ t, if bool_decide (id t = taskId) then with_status t s else t) <$> prev.

(** [prev.filter(t => t.id !== taskId)]. *)
Definition remove_task (taskId : Z) (prev : list Task) : list Task :=
  List.filter (λ t, negb (bool_decide (id t = taskId))) prev.

(** The status shown for a task id: that of the task [find] returns. *)
Definition status_of (taskId : Z) (l : list Task) : option TaskStatus :=
  status <$> find_task taskId l.

Definition update_error : string := "Erreur lors de la mise à jour de la tâche".
Definition delete_error : string := "Erreur lors de la suppression de la tâche".
Definition fetch_error : string := "Erreur lors du chargement des tâches".

(** *** Drag and drop *)

(** [DragEndEvent]: [active.id], and [over] ([null] when the card is
    dropped outside every droppable).  The handler casts [over.id] to
    [TaskStatus] without a check.  The events modelled are the drops
    outside every droppable and the drops whose [over.id] is one of the
    three statuses, that is, the drops over a column; a drop whose
    [over.id] is anything else is not covered. *)
Record DragEndEvent := mkDragEnd {
  active_id : Z;
  over : option TaskStatus
}.

(** What a suspended move keeps in its closure across
    [await apiClient.updateTask(taskId, updateData)]: [taskId], the [task]
    found before the optimistic update, and the request it issued. *)
Record PendingMove := mkPendingMove {
  pm_taskId : Z;
  pm_task : Task;
  pm_request : Z * UpdateTaskData
}.

(** [handleTaskMove], up to the [await].  [rendered] is the [tasks] array
    of the render that created the handler (the closure's [tasks]);
    [setTasks] works on the state current when it runs. *)
Definition handleTaskMove_begin (rendered : list Task)
    (taskId : Z) (newStatus : TaskStatus) (st : State)
  : State * option PendingMove :=
  match find_task taskId rendered with
  | None => (st, None)
  | Some task =>
      if bool_decide (status task = newStatus) then (st, None)
      else
        (setTasks (move_status taskId newStatus) st,
         Some {| pm_taskId := taskId; pm_task := task;
                 pm_request := (taskId, status_only newStatus) |})
  end.

(** [handleTaskMove], from the [await] on. *)
Definition handleTaskMove_resume (p : PendingMove) (r : Js.Outcome Task) (st : State) : State :=
  match r with
  | Js.Resolved _ => st
  | Js.Rejected _ =>
      setError update_error
        (setTasks (move_status (pm_taskId p) (status (pm_task p))) st)
  end.

(** [handleDragEnd], up to the [await]. *)
Definition handleDragEnd_begin (rendered : list Task)
    (event : DragEndEvent) (st : State) : State * option PendingMove :=
  let st := setActiveTask None st in
  match over event with
  | None => (st, None)
  | Some newStatus =>
      let taskId := active_id event in
      match find_task taskId rendered with
      | None => (st, None)
      | Some task =>
          if bool_decide (status task = newStatus) then (st, None)
          else
            (setTasks (move_status taskId newStatus) st,
             Some {| pm_taskId := taskId; pm_task := task;
                     pm_request := (taskId, status_only newStatus) |})
      end
  end.

(** [handleDragEnd], from the [await] on. *)
Definition handleDragEnd_resume (p : PendingMove) (r : Js.Outcome Task) (st : State) : State :=
  match r with
  | Js.Resolved _ => st
  | Js.Rejected _ =>
      setError update_error
        (setTasks (move_status (pm_taskId p) (status (pm_task p))) st)
  end.

(** *** Deletion *)

(** [handleTaskDelete], up to the [await].  [confirmed] is the answer of
    [window.confirm]; the result says whether a request was issued. *)
Definition handleTaskDelete_begin (confirmed : bool) (taskId : Z) (st : State)
  : State * option Z :=
  if negb confirmed then (st, None) else (st, Some taskId).

(** [handleTaskDelete], from the [await] on. *)
Definition handleTaskDelete_resume (taskId : Z) (r : Js.Outcome unit) (st : State) : State :=
  match r with
  | Js.Resolved _ => setTasks (remove_task taskId) st
  | Js.Rejected _ => setError delete_error st
  end.

(** *** Loading the collection *)

(** [fetchTasks], up to the [await]. *)
Definition fetchTasks_begin (st : State) : State :=
  setError "" (setLoading true st).

(** The rest of the [try] block of [fetchTasks]: the array handed to
    [setTasks], according to the shape of [tasksData]. *)
Definition fetchTasks_try (tasksData : Js.Value Task) : Js.Outcome (list Task) :=
  if Js.isArray tasksData then Js.Resolved (Js.items tasksData)
  else
    let* c1 :=
      Js.and_then (Js.truthy tasksData)
        (let* r := Js.get Js.results tasksData in
         Js.and_then (Js.truthy r) (Js.Resolved (Js.isArray r))) in
    if c1 then
      let* r := Js.get Js.results tasksData in Js.Resolved (Js.items r)
    else
      let* c2 :=
        Js.and_then (Js.truthy tasksData)
          (let* r := Js.get Js.data tasksData in
           Js.and_then (Js.truthy r) (Js.Resolved (Js.isArray r))) in
      if c2 then
        let* r := Js.get Js.data tasksData in Js.Resolved (Js.items r)
      else Js.Resolved [].

(** [fetchTasks], from the [await] on: the [try] block, [catch] and
    [finally]. *)
Definition fetchTasks_resume (r : Js.Outcome (Js.Value Task)) (st : State) : State :=
  let st :=
    match Js.bind r fetchTasks_try with
    | Js.Resolved l => setTasks (const l) st
    | Js.Rejected _ => setTasks (const []) (setError fetch_error st)
    end in
  setLoading false st.

(** [fetchTasks] run to completion against a server, with no other event
    in between. *)
Definition fetchTasks
    (refresh_endpoint : ApiClient.Browser → string → Js.Outcome string)
    (server : ApiClient.Browser → ApiClient.RequestConfig
              → ApiClient.Reply (Js.Value Task))
    (fuel : nat) (projectId : Z) (st : State) (w : ApiClient.Browser)
  : option (State * ApiClient.Browser) :=
  let st := fetchTasks_begin st in
  match ApiClient.getProjectTasks refresh_endpoint server fuel projectId w with
  | None => None
  | Some (Js.Resolved l, w) => Some (fetchTasks_resume (Js.Resolved (Js.Array l)) st, w)
  | Some (Js.Rejected e, w) => Some (fetchTasks_resume (Js.Rejected e) st, w)
  end.

(** *** Rendering *)

(** JavaScript truthiness of a string. *)
Definition truthy_string (s : string) : bool := negb (bool_decide (s = "")).

(** What the component returns: the spinner, the error box with its
    retry button (whose [onClick] is [fetchTasks]), or the columns. *)
Inductive Handler := run_fetchTasks.

Inductive View :=
  | Spinner
  | ErrorBox (message : string) (retry_onClick : Handler)
  | Columns (cols : list (TaskStatus * list Z)).

Definition statuses : list TaskStatus := [TO_DO; IN_PROGRESS; DONE].

Definition render (st : State) : View :=
  if loading st then Spinner
  else if truthy_string (error st) then ErrorBox (error st) run_fetchTasks
  else Columns ((λ s, (s, id <$> List.filter (λ t, bool_decide (status t = s)) (tasks st)))
                  <$> statuses).

(** *** Start of a drag *)

(** [handleDragStart]: [event.active.id] is [taskId]. *)
Definition handleDragStart (rendered : list Task) (taskId : Z) (st : State) : State :=
  let task := find_task taskId rendered in
  setActiveTask task st.

End Board.

(** ** KanbanColumn.tsx *)

Module KanbanColumn.

(** [filteredTasks]: the tasks shown by the column whose [status] prop
    is [column]. *)
Definition filteredTasks (column : TaskStatus) (tasks : list Task) : list Task :=
  List.filter (λ task, bool_decide (status task = column)) tasks.

(** [handleTaskMove] of the column whose [status] prop is [column], with
    the board's [handleTaskMove] as [onTaskMove]. *)
Definition handleTaskMove (column : TaskStatus) (rendered : list Task)
    (taskId : Z) (newStatus : TaskStatus) (st : Board.State)
  : Board.State * option Board.PendingMove :=
  if negb (bool_decide (newStatus = column))
  then Board.handleTaskMove_begin rendered taskId newStatus st
  else (st, None).

End KanbanColumn.

(** ** contexts/ProjectContext.tsx *)

Module ProjectContext.

(** The [useState] cells of [ProjectProvider]. *)
Record State := mkState {
  projects : list Project.t;
  currentProject : option Project.t;
  isLoading : bool
}.

Definition initial : State :=
  {| projects := []; currentProject := None; isLoading := false |}.

Definition setProjects (f : list Project.t → list Project.t) (st : State) : State :=
  {| projects := f (projects st); currentProject := currentProject st;
     isLoading := isLoading st |}.

Definition setCurrentProject (p : option Project.t) (st : State) : State :=
  {| projects := projects st; currentProject := p; isLoading := isLoading st |}.

Definition setIsLoading (b : bool) (st : State) : State :=
  {| projects := projects st; currentProject := currentProject st; isLoading := b |}.

(** [currentProject?.id === id], on the [currentProject] of the render
    that created the function. *)
Definition current_is (rendered_current : option Project.t) (id : Z) : bool :=
  match rendered_current with
  | Some p => bool_decide (Project.id p = id)
  | None => false
  end.

(** [fetchProjects], up to the [await]. *)
Definition fetchProjects_begin (st : State) : State := setIsLoading true st.

(** [fetchProjects], from the [await] on. *)
Definition fetchProjects_resume (r : Js.Outcome (Js.Value Project.t)) (st : State) : State :=
  let st :=
    match r with
    | Js.Resolved projectsData =>
        if Js.isArray projectsData
        then setProjects (const (Js.items projectsData)) st
        else setProjects (const []) st
    | Js.Rejected _ => setProjects (const []) st
    end in
  setIsLoading false st.

(** [fetchProjects] run to completion against a server. *)
Definition fetchProjects
    (refresh_endpoint : ApiClient.Browser → string → Js.Outcome string)
    (server : ApiClient.Browser → ApiClient.RequestConfig
              → ApiClient.Reply (Js.Value Project.t))
    (fuel : nat) (st : State) (w : ApiClient.Browser)
  : option (State * ApiClient.Browser) :=
  let st := fetchProjects_begin st in
  match ApiClient.getProjects refresh_endpoint server fuel w with
  | None => None
  | Some (Js.Resolved l, w) => Some (fetchProjects_resume (Js.Resolved (Js.Array l)) st, w)
  | Some (Js.Rejected e, w) => Some (fetchProjects_resume (Js.Rejected e) st, w)
  end.

(** [createProject], up to the [await]. *)
Definition createProject_begin (st : State) : State := setIsLoading true st.

(** [createProject], from the [await] on. *)
Definition createProject_resume (r : Js.Outcome Project.t) (st : State)
  : Handled.Result Project.t * State :=
  match r with
  | Js.Resolved newProject =>
      let st := setProjects (λ prev, (prev ++ [newProject])%list) st in
      (Handled.Returned newProject, setIsLoading false st)
  | Js.Rejected error =>
      (Handled.Threw (Handled.NewError error), setIsLoading false st)
  end.

(** [updateProject], up to the [await]. *)
Definition updateProject_begin (st : State) : State := setIsLoading true st.

(** [updateProject], from the [await] on. *)
Definition updateProject_resume (rendered_current : option Project.t) (id : Z)
    (r : Js.Outcome Project.t) (st : State) : Handled.Result Project.t * State :=
  match r with
  | Js.Resolved updatedProject =>
      let st :=
        setProjects
          (λ prev, (λ project, if bool_decide (Project.id project = id)
                               then updatedProject else project) <$> prev) st in
      let st :=
        if current_is rendered_current id
        then setCurrentProject (Some updatedProject) st else st in
      (Handled.Returned updatedProject, setIsLoading false st)
  | Js.Rejected error =>
      (Handled.Threw (Handled.NewError error), setIsLoading false st)
  end.

(** [deleteProject], up to the [await]. *)
Definition deleteProject_begin (st : State) : State := setIsLoading true st.

(** [deleteProject], from the [await] on. *)
Definition deleteProject_resume (rendered_current : option Project.t) (id : Z)
    (r : Js.Outcome unit) (st : State) : Handled.Result unit * State :=
  match r with
  | Js.Resolved _ =>
      let st :=
        setProjects
          (λ prev, List.filter (λ project, negb (bool_decide (Project.id project = id))) prev)
          st in
      let st :=
        if current_is rendered_current id then setCurrentProject None st else st in
      (Handled.Returned (), setIsLoading false st)
  | Js.Rejected error =>
      (Handled.Threw (Handled.NewError error), setIsLoading false st)
  end.

End ProjectContext.

(** ** components/layout/ProtectedAdminRoute.tsx *)

Module ProtectedAdminRoute.

(** What the component returns: a redirection, the refusal box, or its
    children. *)
Inductive Rendered :=
  | Navigate (to : string)
  | AccessDenied
  | Children.

(** [user?.is_staff] and [user?.is_superuser], as conditions. *)
Definition is_staff (user : option User.t) : bool :=
  match user with
  | Some u => ApiClient.truthy_flag (User.is_staff u)
  | None => false
  end.

Definition is_superuser (user : option User.t) : bool :=
  match user with
  | Some u => ApiClient.truthy_flag (User.is_superuser u)
  | None => false
  end.

Definition render (auth : AuthContext.State) : Rendered :=
  if negb (AuthContext.isAuthenticated auth) then Navigate "/admin-login"
  else if negb (is_staff (AuthContext.user auth))
          && negb (is_superuser (AuthContext.user auth))
  then AccessDenied
  else Children.

End ProtectedAdminRoute.

(** ** Permission evaluator (backend) *)

Module Permission.

(** Modelled from the spec: the backend permission classes
    (kanban_api/kanban/permissions.py) are not among the sources.  The
    definitions below follow rules 1, 2, 3 and 6 of the specification's
    section 4.1, in its order of precedence; comments and user records
    (rules 4 and 5) are left out. *)
Record Actor := mkActor {
  actor_id : Z;
  is_staff : bool;
  is_superuser : bool
}.

(** Modelled from the spec: a project as the evaluator sees it, its owner
    and its set of members. *)
Record ProjectRecord := mkProject {
  owner : Z;
  members : gset Z
}.

(** Modelled from the spec: the two answers of the evaluator. *)
Inductive Decision := ALLOW | DENY.

(** Modelled from the spec: the operations of rules 2 and 3. *)
Inductive Operation := create | read | update | delete.

(** Modelled from the spec: the target of an operation, a project or a
    task of a project. *)
Inductive Resource :=
  | OnProject (p : ProjectRecord)
  | OnTask (task_project : ProjectRecord).

(** Modelled from the spec: [actor == project.owner]. *)
Definition is_owner (a : Actor) (p : ProjectRecord) : bool :=
  bool_decide (actor_id a = owner p).

(** Modelled from the spec: [actor ∈ project.members]. *)
Definition is_member (a : Actor) (p : ProjectRecord) : bool :=
  bool_decide (actor_id a ∈ members p).

Definition allow_if (b : bool) : Decision := if b then ALLOW else DENY.

(** Modelled from the spec: the evaluator of section 4.1, first match
    wins. *)
Definition evaluate (a : Actor) (r : Resource) (op : Operation) : Decision :=
  if is_superuser a || is_staff a then ALLOW
  else
    match r, op with
    | OnProject p, read => allow_if (is_owner a p || is_member a p)
    | OnProject p, (update | delete) => allow_if (is_owner a p)
    | OnTask p, (create | read | update | delete) =>
        allow_if (is_owner a p || is_member a p)
    | _, _ => DENY
    end.

End Permission.

(** ** Sample data *)

Module Sample.

Definition task (i : Z) (s : TaskStatus) : Task :=
  {| id := i; title := "Write report"; description := ""; project := 7;
     project_name := "Demo"; status := s; priority := MEDIUM;
     assigned_to := None; assigned_to_username := None; due_date := None;
     created_at := "2024-01-01"; updated_at := "2024-01-02";
     comments_count := Some 0 |}.

Definition board : Board.State :=
  {| Board.tasks := [task 1 TO_DO; task 2 DONE]; Board.loading := false;
     Board.error := ""; Board.activeTask := Some (task 1 TO_DO);
     Board.showCreateTaskModal := false; Board.showTaskDetailsModal := false;
     Board.selectedTask := None |}.

(** A server that answers 401 to everything, and a refresh endpoint
    that is down. *)
Definition always_401 : ApiClient.Browser → ApiClient.RequestConfig
                        → ApiClient.Reply (Js.Value Task) :=
  λ _ _, ApiClient.Response 401 Js.Null.

Definition refresh_rejected : ApiClient.Browser → string → Js.Outcome string :=
  λ _ _, Js.Rejected (Js.AxiosError (Some 401)).

Definition refresh_granted : ApiClient.Browser → string → Js.Outcome string :=
  λ _ _, Js.Resolved "fresh".

(** A browser that holds an access token and no refresh token. *)
Definition browser_without_refresh_token : ApiClient.Browser :=
  {| ApiClient.localStorage := {[ "access_token" := "expired" ]};
     ApiClient.location_href := "/dashboard";
     ApiClient.wire := []; ApiClient.refresh_posts := 0 |}.

(** A browser that holds both tokens. *)
Definition browser_logged_in : ApiClient.Browser :=
  {| ApiClient.localStorage :=
       {[ "access_token" := "expired"; "refresh_token" := "stale" ]};
     ApiClient.location_href := "/dashboard";
     ApiClient.wire := []; ApiClient.refresh_posts := 0 |}.

(** A server that answers 200 with a page of HTML, which axios leaves
    as a string. *)
Definition html_page : ApiClient.Browser → ApiClient.RequestConfig
                       → ApiClient.Reply (Js.Value Task) :=
  λ _ _, ApiClient.Response 200 (Js.String "<!doctype html>").

Definition get_tasks : ApiClient.RequestConfig :=
  ApiClient.request "get" "/projects/7/tasks/" [].

(** A server that answers 500 to everything. *)
Definition always_500 : ApiClient.Browser → ApiClient.RequestConfig
                        → ApiClient.Reply (Js.Value Task) :=
  λ _ _, ApiClient.Response 500 Js.Null.

(** A server that accepts the token ["fresh"] and no other. *)
Definition accepts_fresh : ApiClient.Browser → ApiClient.RequestConfig
                           → ApiClient.Reply (Js.Value Task) :=
  λ _ config,
    if bool_decide (ApiClient.Authorization config = Some "Bearer fresh")
    then ApiClient.Response 200 (Js.Array [task 1 TO_DO])
    else ApiClient.Response 401 Js.Null.

(** A login endpoint that grants a pair of tokens, and a profile
    endpoint that is broken. *)
Definition login_granted : ApiClient.Browser → ApiClient.RequestConfig
                           → ApiClient.Reply AuthTokens.t :=
  λ _ _, ApiClient.Response 200
           {| AuthTokens.access := "new-access"; AuthTokens.refresh := "new-refresh" |}.

Definition me_broken : ApiClient.Browser → ApiClient.RequestConfig
                       → ApiClient.Reply User.t :=
  λ _ _, ApiClient.NoResponse.

Definition credentials : LoginCredentials.t :=
  {| LoginCredentials.username := "ana"; LoginCredentials.password := "secret" |}.

(** Two projects, the first of them selected. *)
Definition listed_project (i : Z) (n : string) : Project.t :=
  {| Project.id := i; Project.name := n; Project.description := "";
     Project.owner := 1; Project.owner_username := "ana";
     Project.members := [5; 6]; Project.member_usernames := ["bo"; "cy"];
     Project.created_at := "2024-01-01"; Project.tasks_count := Some 2 |}.

Definition project_list : ProjectContext.State :=
  {| ProjectContext.projects := [listed_project 7 "Demo"; listed_project 8 "Other"];
     ProjectContext.currentProject := Some (listed_project 7 "Demo");
     ProjectContext.isLoading := false |}.

(** An authenticated administrator. *)
Definition admin_session : AuthContext.State :=
  {| AuthContext.user :=
       Some {| User.id := 1; User.username := "admin"; User.email := "a@example.org";
               User.first_name := ""; User.last_name := "";
               User.date_joined := "2024-01-01"; User.is_staff := Some true;
               User.is_active := Some true; User.is_superuser := None;
               User.last_login := None |};
     AuthContext.isAuthenticated := true;
     AuthContext.isLoading := false |}.

(** A member of a project who is neither its owner nor an administrator. *)
Definition member : Permission.Actor :=
  {| Permission.actor_id := 5; Permission.is_staff := false;
     Permission.is_superuser := false |}.

Definition project : Permission.ProjectRecord :=
  {| Permission.owner := 1; Permission.members := {[ 5; 6 ]} |}.

End Sample.

(** * Properties *)

(** ** The status update on the collection *)

Section MoveStatus.

Import Board.

Lemma with_status_same t : with_status t (status t) = t.
Proof. by destruct t. Qed.

Lemma move_status_length k s l : length (move_status k s l) = length l.
Proof. apply length_fmap. Qed.

Lemma move_status_lookup k s l i :
  move_status k s l !! i
  = (λ t, if bool_decide (id t = k) then with_status t s else t) <$> (l !! i).
Proof. apply list_lookup_fmap. Qed.

Lemma move_status_ids k s l : id <$> move_status k s l = id <$> l.
Proof.
  unfold move_status. rewrite <- list_fmap_compose.
  apply list_fmap_ext. intros _ t _. simpl. by case_bool_decide.
Qed.

Lemma move_status_twice k s1 s2 l :
  move_status k s2 (move_status k s1 l) = move_status k s2 l.
Proof.
  unfold move_status. rewrite <- list_fmap_compose.
  apply list_fmap_ext. intros _ t _. simpl.
  destruct (decide (id t = k)) as [Hk | Hk].
  - rewrite (bool_decide_eq_true_2 (id t = k)) by done.
    by rewrite bool_decide_eq_true_2.
  - rewrite (bool_decide_eq_false_2 (id t = k)) by done.
    by rewrite bool_decide_eq_false_2.
Qed.

Lemma find_task_move_status k s l :
  find_task k (move_status k s l) = (λ t, with_status t s) <$> find_task k l.
Proof.
  induction l as [| t l IH]; [done |]. unfold find_task in *. simpl.
  destruct (decide (id t = k)) as [Hk | Hk].
  - rewrite (bool_decide_eq_true_2 (id t = k)) by done. simpl.
    by rewrite bool_decide_eq_true_2.
  - rewrite (bool_decide_eq_false_2 (id t = k)) by done.
    by rewrite bool_decide_eq_false_2.
Qed.

Lemma status_of_move_status k s l :
  status_of k (move_status k s l) = (λ _, s) <$> find_task k l.
Proof.
  unfold status_of. rewrite find_task_move_status. by destruct (find_task k l).
Qed.

Lemma find_task_Some k l t : find_task k l = Some t → t ∈ l ∧ id t = k.
Proof.
  unfold find_task. intros H. apply find_some in H as [Hin Hk].
  apply bool_decide_eq_true_1 in Hk. by rewrite list_elem_of_In.
Qed.

(** In a collection without duplicate ids, [find] by the id of a member
    returns that member. *)
Lemma find_task_member l t :
  NoDup (id <$> l) → t ∈ l → find_task (id t) l = Some t.
Proof.
  induction l as [| u l IH]; intros Hnd Hin; [by apply elem_of_nil in Hin |].
  apply NoDup_cons in Hnd as [Hu Hnd]. unfold find_task in *. simpl.
  apply elem_of_cons in Hin as [-> | Hin].
  - by rewrite bool_decide_eq_true_2.
  - rewrite bool_decide_eq_false_2; [by apply IH |].
    intros Heq. apply Hu. rewrite Heq. by apply list_elem_of_fmap_2.
Qed.

(** Writing back the status a member already has changes nothing. *)
Lemma move_status_restore l t :
  NoDup (id <$> l) → t ∈ l → move_status (id t) (status t) l = l.
Proof.
  intros Hnd Hin. unfold move_status.
  rewrite <- (list_fmap_id l) at 2.
  apply list_fmap_ext. intros i u Hu. simpl.
  case_bool_decide as Hk; [| done].
  apply list_elem_of_lookup_2 in Hu.
  assert (Some u = Some t) as Heq.
  { rewrite <- (find_task_member l u Hnd Hu), Hk. by apply find_task_member. }
  injection Heq as Heq. rewrite Heq. apply with_status_same.
Qed.

(** After a write of [s] to id [k], every task with that id has status
    [s], whatever the collection was. *)
Lemma move_status_sets k s l t :
  t ∈ move_status k s l → id t = k → status t = s.
Proof.
  unfold move_status. intros Hin Hk.
  apply list_elem_of_fmap in Hin as (u & -> & _).
  revert Hk. case_bool_decide; simpl; [done | congruence].
Qed.

End MoveStatus.

(** ** Drag and drop: frame, rollback, overlapping moves *)

Section DragAndDrop.

Import Board.

(** C8.  The updater that the optimistic update and the rollback of
    [handleDragEnd] pass to [setTasks] keeps the length and the order of
    the collection; at every position the task keeps all its fields but
    [status]; a task whose id is not the dragged one is unchanged; and in
    a collection without duplicate ids at most one position changes.
    Both state updates of the handler are this updater applied to the
    collection, and the handler touches no task otherwise. *)
Theorem move_status_frame (taskId : Z) (s : TaskStatus) (prev : list Task) :
  length (move_status taskId s prev) = length prev
  ∧ (∀ i t, prev !! i = Some t →
       ∃ t', move_status taskId s prev !! i = Some t'
         ∧ id t' = id t ∧ title t' = title t ∧ description t' = description t
         ∧ project t' = project t ∧ project_name t' = project_name t
         ∧ priority t' = priority t ∧ assigned_to t' = assigned_to t
         ∧ assigned_to_username t' = assigned_to_username t
         ∧ due_date t' = due_date t ∧ created_at t' = created_at t
         ∧ updated_at t' = updated_at t ∧ comments_count t' = comments_count t
         ∧ t' = with_status t (status t')
         ∧ (id t ≠ taskId → t' = t))
  ∧ (NoDup (id <$> prev) →
       ∀ i j, move_status taskId s prev !! i ≠ prev !! i →
              move_status taskId s prev !! j ≠ prev !! j → i = j)
  ∧ (∀ rendered event st st1 p,
       handleDragEnd_begin rendered event st = (st1, Some p) →
       ∃ newStatus, over event = Some newStatus
         ∧ tasks st1 = move_status (active_id event) newStatus (tasks st)
         ∧ pm_taskId p = active_id event)
  ∧ (∀ p e st,
       tasks (handleDragEnd_resume p (Js.Rejected e) st)
       = move_status (pm_taskId p) (status (pm_task p)) (tasks st)).
Proof.
  split; [apply move_status_length |].
  split.
  { intros i t Hi. rewrite move_status_lookup, Hi. simpl.
    case_bool_decide as Hk.
    - exists (with_status t s). by repeat split.
    - exists t. repeat split; try done. by rewrite with_status_same. }
  split.
  { intros Hnd i j Hi Hj.
    rewrite move_status_lookup in Hi, Hj.
    destruct (prev !! i) as [t |] eqn:Ei; [| done].
    destruct (prev !! j) as [u |] eqn:Ej; [| done].
    simpl in Hi, Hj.
    case_bool_decide as Hti; [| done]. case_bool_decide as Htj; [| done].
    apply (NoDup_lookup (id <$> prev) i j taskId Hnd).
    - rewrite list_lookup_fmap, Ei. simpl. congruence.
    - rewrite list_lookup_fmap, Ej. simpl. congruence. }
  split.
  { intros rendered event st st1 p. unfold handleDragEnd_begin.
    destruct (over event) as [newStatus |]; [| done].
    destruct (find_task _ _) as [task |]; [| done].
    case_bool_decide; [done |].
    intros [= <- <-]. by exists newStatus. }
  done.
Qed.

(** The frame property at the sample board: task 2 is untouched when
    task 1 is moved, and only one position differs. *)
Lemma move_status_frame_witness :
  NoDup (id <$> Board.tasks Sample.board)
  ∧ (∀ i j,
       move_status 1 DONE (Board.tasks Sample.board) !! i ≠ Board.tasks Sample.board !! i →
       move_status 1 DONE (Board.tasks Sample.board) !! j ≠ Board.tasks Sample.board !! j →
       i = j).
Proof.
  assert (NoDup (id <$> Board.tasks Sample.board)) as Hnd.
  { simpl. apply (bool_decide_unpack (NoDup [1; 2])). vm_compute. exact I. }
  split; [exact Hnd |].
  exact (proj1 (proj2 (proj2 (move_status_frame 1 DONE (Board.tasks Sample.board)))) Hnd).
Defined.

(** A drag of a member of a duplicate-free collection to another column
    passes the no-op check. *)
Lemma handleDragEnd_begin_moves (st : State) (T : Task) (S' : TaskStatus) :
  T ∈ tasks st → NoDup (id <$> tasks st) → status T ≠ S' →
  handleDragEnd_begin (tasks st) {| active_id := id T; over := Some S' |} st
  = (setTasks (move_status (id T) S') (setActiveTask None st),
     Some {| pm_taskId := id T; pm_task := T;
             pm_request := (id T, status_only S') |}).
Proof.
  intros Hin Hnd Hne. unfold handleDragEnd_begin. simpl.
  rewrite find_task_member by done.
  by rewrite bool_decide_eq_false_2.
Qed.

(** C1.  Let [T] be a task of the collection (ids are unique) and [S']
    a status other than the one [T] has.  Dropping [T] on column [S']
    issues the request, keeps [T]'s status in the closure and shows [S']
    at once; when the request is rejected the collection is again the
    one before the drag, so [T] has its captured status, and the error
    message is set and rendered instead of the board.  Whatever happened
    to the collection in between, after the rollback every task with
    [T]'s id has the captured status. *)
Theorem failed_drag_restores_status
    (st : State) (T : Task) (S' : TaskStatus) (e : Js.Error) :
  T ∈ tasks st → NoDup (id <$> tasks st) → status T ≠ S' →
  ∃ st1 p,
    handleDragEnd_begin (tasks st) {| active_id := id T; over := Some S' |} st
    = (st1, Some p)
    ∧ pm_request p = (id T, status_only S')
    ∧ status (pm_task p) = status T
    ∧ status_of (id T) (tasks st1) = Some S'
    ∧ tasks (handleDragEnd_resume p (Js.Rejected e) st1) = tasks st
    ∧ status_of (id T) (tasks (handleDragEnd_resume p (Js.Rejected e) st1))
      = Some (status T)
    ∧ error (handleDragEnd_resume p (Js.Rejected e) st1) = update_error
    ∧ render (handleDragEnd_resume p (Js.Rejected e) st1)
      = (if loading st then Spinner else ErrorBox update_error run_fetchTasks)
    ∧ (∀ st' t, t ∈ tasks (handleDragEnd_resume p (Js.Rejected e) st') →
                id t = id T → status t = status T).
Proof.
  intros Hin Hnd Hne. eexists _, _.
  split; [by apply handleDragEnd_begin_moves |]. simpl.
  split; [done |]. split; [done |].
  split.
  { rewrite status_of_move_status. by rewrite find_task_member. }
  assert (move_status (id T) (status T) (move_status (id T) S' (tasks st)) = tasks st)
    as Hback.
  { rewrite move_status_twice. by apply move_status_restore. }
  split; [exact Hback |].
  split.
  { rewrite Hback. unfold status_of. by rewrite find_task_member. }
  split; [done |].
  split.
  { unfold render. simpl. by destruct (loading st). }
  intros st' t Ht Hid. by eapply move_status_sets.
Qed.

Lemma failed_drag_restores_status_witness :
  ∃ st1 p,
    handleDragEnd_begin (tasks Sample.board)
      {| active_id := 1; over := Some DONE |} Sample.board = (st1, Some p)
    ∧ status_of 1 (tasks st1) = Some DONE
    ∧ status_of 1 (tasks (handleDragEnd_resume p (Js.Rejected (Js.AxiosError (Some 500))) st1))
      = Some TO_DO
    ∧ error (handleDragEnd_resume p (Js.Rejected (Js.AxiosError (Some 500))) st1)
      = update_error.
Proof.
  destruct (failed_drag_restores_status Sample.board (Sample.task 1 TO_DO) DONE
              (Js.AxiosError (Some 500)))
    as (st1 & p & H1 & _ & _ & H2 & _ & H3 & H4 & _).
  - simpl. apply elem_of_cons. by left.
  - simpl. apply (bool_decide_unpack (NoDup [1; 2])). vm_compute. exact I.
  - simpl. discriminate.
  - exists st1, p. repeat split; assumption.
Defined.

(** C2, as stated, fails.  On the sample board task 1 is in TO_DO.  It is
    dragged to IN_PROGRESS and, before the first request settles, to
    DONE.  When the second request is rejected the task is put back to
    IN_PROGRESS, the value the first drag had set; this is also the final
    status when both requests are rejected in the order they were
    issued.  The status before the first drag is not restored. *)
Lemma second_drag_rollback_counterexample :
  ∃ st1 p1 st2 p2,
    handleDragEnd_begin (tasks Sample.board)
      {| active_id := 1; over := Some IN_PROGRESS |} Sample.board = (st1, Some p1)
    ∧ handleDragEnd_begin (tasks st1)
        {| active_id := 1; over := Some DONE |} st1 = (st2, Some p2)
    ∧ status_of 1 (tasks Sample.board) = Some TO_DO
    ∧ status_of 1 (tasks (handleDragEnd_resume p2 (Js.Rejected (Js.AxiosError (Some 500))) st2))
      = Some IN_PROGRESS
    ∧ status_of 1
        (tasks (handleDragEnd_resume p2 (Js.Rejected (Js.AxiosError (Some 500)))
                  (handleDragEnd_resume p1 (Js.Rejected (Js.AxiosError (Some 500))) st2)))
      = Some IN_PROGRESS
    ∧ Some IN_PROGRESS ≠ status_of 1 (tasks Sample.board).
Proof.
  eexists _, _, _, _.
  split; [reflexivity |]. split; [reflexivity |].
  split; [reflexivity |]. split; [reflexivity |]. split; [reflexivity |].
  discriminate.
Qed.

(** C2, amended.  Let [T] be a task of the collection (ids are unique)
    with status [S], dragged to [S1] and, while that request is pending
    and after the board has rendered the optimistic value, to [S2].  The
    second drag shows [S2].  The first move has captured [S] and the
    second has captured [S1]: a rejection of the second request puts the
    task back to [S1], a rejection of the first puts it back to [S], and
    when both are rejected the one handled last decides. *)
Theorem overlapping_drags_rollback
    (st : State) (T : Task) (S1 S2 : TaskStatus) (e1 e2 : Js.Error) :
  T ∈ tasks st → NoDup (id <$> tasks st) → status T ≠ S1 → S1 ≠ S2 →
  ∃ st1 p1 st2 p2,
    handleDragEnd_begin (tasks st) {| active_id := id T; over := Some S1 |} st
    = (st1, Some p1)
    ∧ handleDragEnd_begin (tasks st1) {| active_id := id T; over := Some S2 |} st1
      = (st2, Some p2)
    ∧ status_of (id T) (tasks st2) = Some S2
    ∧ status (pm_task p1) = status T
    ∧ status (pm_task p2) = S1
    ∧ status_of (id T) (tasks (handleDragEnd_resume p2 (Js.Rejected e2) st2)) = Some S1
    ∧ status_of (id T) (tasks (handleDragEnd_resume p1 (Js.Rejected e1) st2))
      = Some (status T)
    ∧ status_of (id T)
        (tasks (handleDragEnd_resume p2 (Js.Rejected e2)
                  (handleDragEnd_resume p1 (Js.Rejected e1) st2))) = Some S1
    ∧ status_of (id T)
        (tasks (handleDragEnd_resume p1 (Js.Rejected e1)
                  (handleDragEnd_resume p2 (Js.Rejected e2) st2))) = Some (status T).
Proof.
  intros Hin Hnd Hne1 Hne2.
  pose proof (find_task_member _ _ Hnd Hin) as Hfind.
  eexists _, _, _, _.
  split; [by apply handleDragEnd_begin_moves |].
  split.
  { unfold handleDragEnd_begin. simpl.
    rewrite find_task_move_status, Hfind. simpl.
    by rewrite bool_decide_eq_false_2. }
  simpl. rewrite !move_status_twice, !status_of_move_status, Hfind.
  by repeat split.
Qed.

Lemma overlapping_drags_rollback_witness :
  ∃ st1 p1 st2 p2,
    handleDragEnd_begin (tasks Sample.board)
      {| active_id := 1; over := Some IN_PROGRESS |} Sample.board = (st1, Some p1)
    ∧ handleDragEnd_begin (tasks st1)
        {| active_id := 1; over := Some DONE |} st1 = (st2, Some p2)
    ∧ status_of 1 (tasks st2) = Some DONE
    ∧ status_of 1 (tasks (handleDragEnd_resume p2 (Js.Rejected Js.TypeError) st2))
      = Some IN_PROGRESS.
Proof.
  destruct (overlapping_drags_rollback Sample.board (Sample.task 1 TO_DO)
              IN_PROGRESS DONE Js.TypeError Js.TypeError)
    as (st1 & p1 & st2 & p2 & H1 & H2 & H3 & _ & _ & H4 & _).
  - simpl. apply elem_of_cons. by left.
  - simpl. apply (bool_decide_unpack (NoDup [1; 2])). vm_compute. exact I.
  - simpl. discriminate.
  - discriminate.
  - exists st1, p1, st2, p2. repeat split; assumption.
Defined.

(** C10.  For every rendered collection, task id, target status and
    state, [handleDragEnd] on a drop over the column of that status does
    what [handleTaskMove] does once the drag overlay is cleared: the same
    no-op check, the same optimistic update of the collection, the same
    request and the same suspended closure; and the two continuations
    after the request are the same function, rollback and error message
    included. *)
Theorem handleDragEnd_handleTaskMove_equiv
    (rendered : list Task) (taskId : Z) (newStatus : TaskStatus) (st : State) :
  handleDragEnd_begin rendered {| active_id := taskId; over := Some newStatus |} st
  = handleTaskMove_begin rendered taskId newStatus (setActiveTask None st)
  ∧ snd (handleDragEnd_begin rendered {| active_id := taskId; over := Some newStatus |} st)
    = snd (handleTaskMove_begin rendered taskId newStatus st)
  ∧ tasks (fst (handleDragEnd_begin rendered
                  {| active_id := taskId; over := Some newStatus |} st))
    = tasks (fst (handleTaskMove_begin rendered taskId newStatus st))
  ∧ error (fst (handleDragEnd_begin rendered
                  {| active_id := taskId; over := Some newStatus |} st))
    = error (fst (handleTaskMove_begin rendered taskId newStatus st))
  ∧ (∀ p r st', handleDragEnd_resume p r st' = handleTaskMove_resume p r st').
Proof.
  unfold handleDragEnd_begin, handleTaskMove_begin. simpl.
  destruct (find_task taskId rendered) as [task |]; [| done].
  by case_bool_decide.
Qed.

(** C9.  [handleTaskDelete] leaves the state as it is until the server
    has answered (and issues no request when the user does not confirm);
    when the request is rejected the collection is unchanged, so the
    task is still found, and the error message, which is not empty, is
    set and rendered in the error box instead of the board; when it
    succeeds the tasks with that id, and only they, are removed. *)
Theorem delete_after_confirmation (taskId : Z) (st : State) (e : Js.Error) :
  handleTaskDelete_begin false taskId st = (st, None)
  ∧ handleTaskDelete_begin true taskId st = (st, Some taskId)
  ∧ tasks (handleTaskDelete_resume taskId (Js.Rejected e) st) = tasks st
  ∧ find_task taskId (tasks (handleTaskDelete_resume taskId (Js.Rejected e) st))
    = find_task taskId (tasks st)
  ∧ error (handleTaskDelete_resume taskId (Js.Rejected e) st) = delete_error
  ∧ truthy_string (error (handleTaskDelete_resume taskId (Js.Rejected e) st)) = true
  ∧ error (handleTaskDelete_resume taskId (Js.Rejected e) st)
    = "Erreur lors de la suppression de la tâche"
  ∧ render (handleTaskDelete_resume taskId (Js.Rejected e) st)
    = (if loading st then Spinner
       else ErrorBox "Erreur lors de la suppression de la tâche" run_fetchTasks)
  ∧ tasks (handleTaskDelete_resume taskId (Js.Resolved ()) st)
    = filter (λ t, id t ≠ taskId) (tasks st)
  ∧ find_task taskId (tasks (handleTaskDelete_resume taskId (Js.Resolved ()) st)) = None
  ∧ error (handleTaskDelete_resume taskId (Js.Resolved ()) st) = error st.
Proof.
  split; [done |]. split; [done |]. split; [done |]. split; [done |].
  split; [done |]. split; [done |]. split; [done |].
  split; [unfold render; simpl; by destruct (loading st) |].
  repeat split; simpl.
  - unfold remove_task. induction (tasks st) as [| t l IH]; [done |].
    simpl. rewrite filter_cons. rewrite IH.
    case_bool_decide; by case_decide.
  - unfold find_task, remove_task.
    induction (tasks st) as [| t l IH]; [done |]. simpl.
    case_bool_decide as Hk; simpl; [done |].
    by rewrite bool_decide_eq_false_2.
Qed.

End DragAndDrop.

(** ** The API client: refresh and retry *)

Section Interceptors.

Import ApiClient.

Context {B : Type}.
Variable server : Browser → RequestConfig → Reply B.
Variable refresh_endpoint : Browser → string → Js.Outcome string.

Lemma request_interceptor_retry config w :
  _retry (request_interceptor config w) = _retry config.
Proof. unfold request_interceptor. by destruct (truthy_item _). Qed.

(** One unfolding of [client]. *)
Lemma client_S fuel config w :
  client server refresh_endpoint (S fuel) config w
  = match server w (request_interceptor config w) with
    | Response status data =>
        if validateStatus status
        then Some (Js.Resolved (status, data),
                   put_on_wire (request_interceptor config w) w)
        else error_interceptor refresh_endpoint
               (client server refresh_endpoint fuel) (Some status)
               (request_interceptor config w)
               (put_on_wire (request_interceptor config w) w)
    | NoResponse =>
        error_interceptor refresh_endpoint
          (client server refresh_endpoint fuel) None
          (request_interceptor config w)
          (put_on_wire (request_interceptor config w) w)
    end.
Proof. done. Qed.

(** A request that carries the mark is sent once, whatever the answer. *)
Lemma client_marked fuel config w :
  _retry config = true →
  client server refresh_endpoint (S fuel) config w
  = Some (settle (server w (request_interceptor config w)),
          put_on_wire (request_interceptor config w) w).
Proof.
  intros Hr. simpl.
  pose proof (request_interceptor_retry config w) as Hr'. rewrite Hr in Hr'.
  unfold error_interceptor, settle. rewrite Hr'.
  destruct (server w (request_interceptor config w)) as [status data |];
    [destruct (validateStatus status); [done |] |];
    by rewrite andb_false_r.
Qed.

(** With two units of fuel or more [client] returns. *)
Lemma client_returns (n : nat) (config : RequestConfig) (w : Browser) :
  ∃ r w', client server refresh_endpoint (S (S n)) config w = Some (r, w').
Proof.
  rewrite client_S.
  assert (∀ status,
    ∃ r w',
      error_interceptor refresh_endpoint (client server refresh_endpoint (S n)) status
        (request_interceptor config w) (put_on_wire (request_interceptor config w) w)
      = Some (r, w')) as Herr.
  { intros status. unfold error_interceptor.
    destruct (_ && _); [| by eexists _, _].
    destruct (truthy_item _); [| by eexists _, _].
    destruct (refresh_endpoint _ _) as [access | e]; [| by eexists _, _].
    rewrite client_marked by done. by eexists _, _. }
  destruct (server w (request_interceptor config w)) as [status data |];
    [| apply Herr].
  destruct (validateStatus status); [by eexists _, _ | apply Herr].
Qed.

(** The client at work: both tokens stored, every request answered 401,
    the refresh granted.  The request goes out twice, the second time
    under the new token, and the second 401 is handed to the caller. *)
Example second_401_is_final :
  ∃ w',
    client Sample.always_401 Sample.refresh_granted 5 Sample.get_tasks
      Sample.browser_logged_in
    = Some (Js.Rejected (Js.AxiosError (Some 401)), w')
    ∧ Authorization <$> wire w' = [Some "Bearer fresh"; Some "Bearer expired"]
    ∧ _retry <$> wire w' = [true; false]
    ∧ refresh_posts w' = 1%nat
    ∧ getItem "access_token" w' = Some "fresh".
Proof.
  eexists. split; [vm_compute; reflexivity |].
  repeat split; vm_compute; reflexivity.
Qed.

(** C4.  For every server, every refresh endpoint, every request and
    every browser state, [this.client] returns (two units of fuel are
    enough, and more change nothing), and it has put the request on the
    network either once, or twice; twice only when the request did not
    carry the mark, the first answer was 401 and the refresh call was
    made once, and then the second copy carries the mark and its answer,
    whatever it is, is what the caller gets.  A request that carries the
    mark is sent once. *)
Theorem retried_at_most_once (n : nat) (config : RequestConfig) (w : Browser) :
  ∃ r w',
    client server refresh_endpoint (S (S n)) config w = Some (r, w')
    ∧ client server refresh_endpoint 2 config w = Some (r, w')
    ∧ (wire w' = request_interceptor config w :: wire w
       ∨ ∃ again w2,
           wire w' = again :: request_interceptor config w :: wire w
           ∧ _retry config = false
           ∧ _retry again = true
           ∧ response_status (server w (request_interceptor config w)) = Some 401
           ∧ refresh_posts w' = S (refresh_posts w)
           ∧ r = settle (server w2 again)
           ∧ w' = put_on_wire again w2)
    ∧ (length (wire w') ≤ length (wire w) + (if _retry config then 1 else 2))%nat.
Proof.
  destruct (_retry config) eqn:Hr.
  { rewrite !client_marked by done. eexists _, _.
    split; [done |]. split; [done |]. split; [by left |]. simpl. lia. }
  rewrite (client_S (S n)), (client_S 1).
  set (c1 := request_interceptor config w).
  set (w1 := put_on_wire c1 w).
  assert (_retry c1 = false) as Hr1.
  { subst c1. by rewrite request_interceptor_retry. }
  assert (∀ status,
    ∃ r w',
      error_interceptor refresh_endpoint (client server refresh_endpoint (S n)) status c1 w1
      = Some (r, w')
      ∧ error_interceptor refresh_endpoint (client server refresh_endpoint 1) status c1 w1
        = Some (r, w')
      ∧ (wire w' = c1 :: wire w
         ∨ ∃ again w2,
             wire w' = again :: c1 :: wire w
             ∧ _retry again = true
             ∧ status = Some 401
             ∧ refresh_posts w' = S (refresh_posts w)
             ∧ r = settle (server w2 again)
             ∧ w' = put_on_wire again w2)) as Herr.
  { intros status. unfold error_interceptor. rewrite Hr1. cbn [negb].
    rewrite andb_true_r.
    case_bool_decide as Hs; [| eexists _, _; repeat split; by left].
    destruct (truthy_item (getItem "refresh_token" w1));
      [| eexists _, _; repeat split; by left].
    destruct (refresh_endpoint w1 _) as [access | e];
      [| eexists _, _; repeat split; by left].
    rewrite !client_marked by done.
    eexists _, _. split; [done |]. split; [done |]. right.
    eexists _, _. split; [done |]. split.
    { by rewrite request_interceptor_retry. }
    by repeat split. }
  destruct (server w c1) as [status data |] eqn:Hreply.
  - destruct (validateStatus status) eqn:Hv.
    + eexists _, _. split; [done |]. split; [done |]. split; [by left |]. simpl. lia.
    + destruct (Herr (Some status)) as (r & w' & -> & -> & Hw).
      exists r, w'. split; [done |]. split; [done |].
      split.
      * destruct Hw as [Hw | (again & w2 & Hw & Ha & Hs & Hp & Hset)]; [by left |].
        right. exists again, w2. repeat split; try done; try tauto.
      * destruct Hw as [-> | (again & w2 & -> & _)]; simpl; lia.
  - destruct (Herr None) as (r & w' & -> & -> & Hw).
    exists r, w'. split; [done |]. split; [done |].
    split.
    + destruct Hw as [Hw | (again & w2 & Hw & Ha & Hs & Hp & Hset)]; [by left | done].
    + destruct Hw as [-> | (again & w2 & -> & _)]; simpl; lia.
Qed.

End Interceptors.

(** ** The API client: failure of the refresh *)

(** C5, as stated, fails.  The browser holds an access token and no
    refresh token; the server answers 401.  The interceptor makes no
    refresh call and rejects with the 401: the access token is still in
    storage and the location is not the login page. *)
Lemma absent_refresh_token_counterexample :
  ∃ w',
    ApiClient.client Sample.always_401 Sample.refresh_rejected 2 Sample.get_tasks
      Sample.browser_without_refresh_token
    = Some (Js.Rejected (Js.AxiosError (Some 401)), w')
    ∧ ApiClient.getItem "refresh_token" Sample.browser_without_refresh_token = None
    ∧ ApiClient.refresh_posts w' = 0%nat
    ∧ ApiClient.getItem "access_token" w' = Some "expired"
    ∧ ApiClient.location_href w' = "/dashboard".
Proof.
  eexists. split; [vm_compute; reflexivity |].
  repeat split; vm_compute; reflexivity.
Qed.

Section RefreshFailure.

Import ApiClient.

Context {B : Type}.
Variable server : Browser → RequestConfig → Reply B.
Variable refresh_endpoint : Browser → string → Js.Outcome string.

(** C5, amended.  Let an unmarked request be answered 401.  When a
    refresh token is stored and the refresh call fails, the interceptor
    removes both tokens from storage, sends the browser to the login
    page and rejects with the 401, without sending the request again.
    When no refresh token is stored (or it is the empty string), the
    interceptor makes no refresh call, leaves storage and location as
    they are and rejects with the 401.  In [AuthContext.refreshToken],
    every failure of [apiClient.refreshToken] ends in [logout]: both
    tokens removed, no user, not authenticated, and the error thrown
    again. *)
Theorem refresh_failure_clears_credentials
    (server_r : Browser → RequestConfig → Reply string)
    (n : nat) (config : RequestConfig) (w : Browser) (st : AuthContext.State) :
  _retry config = false →
  response_status (server w (request_interceptor config w)) = Some 401 →
  (∀ e, truthy_item (getItem "refresh_token" w) = true →
        refresh_endpoint (put_on_wire (request_interceptor config w) w)
          (default "" (getItem "refresh_token" w)) = Js.Rejected e →
        ∃ w', client server refresh_endpoint (S n) config w
              = Some (Js.Rejected (Js.AxiosError (Some 401)), w')
            ∧ getItem "access_token" w' = None
            ∧ getItem "refresh_token" w' = None
            ∧ location_href w' = "/login"
            ∧ wire w' = request_interceptor config w :: wire w)
  ∧ (truthy_item (getItem "refresh_token" w) = false →
       client server refresh_endpoint (S n) config w
       = Some (Js.Rejected (Js.AxiosError (Some 401)),
               put_on_wire (request_interceptor config w) w))
  ∧ ∃ r w1,
      ApiClient.refreshToken refresh_endpoint server_r (S (S n)) w = Some (r, w1)
      ∧ match r with
        | Js.Rejected e =>
            AuthContext.refreshToken refresh_endpoint server_r (S (S n)) st w
            = Some (Js.Rejected e,
                    (AuthContext.logout st w1).1, (AuthContext.logout st w1).2)
            ∧ getItem "access_token" (AuthContext.logout st w1).2 = None
            ∧ getItem "refresh_token" (AuthContext.logout st w1).2 = None
            ∧ AuthContext.isAuthenticated (AuthContext.logout st w1).1 = false
            ∧ AuthContext.user (AuthContext.logout st w1).1 = None
        | Js.Resolved access =>
            AuthContext.refreshToken refresh_endpoint server_r (S (S n)) st w
            = Some (Js.Resolved (), st, setItem "access_token" access w1)
        end.
Proof.
  intros Hr Hs.
  assert (_retry (request_interceptor config w) = false) as Hr1.
  { by rewrite request_interceptor_retry. }
  assert (client server refresh_endpoint (S n) config w
          = error_interceptor refresh_endpoint (client server refresh_endpoint n)
              (Some 401) (request_interceptor config w)
              (put_on_wire (request_interceptor config w) w)) as Hc.
  { rewrite client_S.
    destruct (server w (request_interceptor config w)) as [status data |];
      [| done].
    injection Hs as ->. done. }
  rewrite Hc. unfold error_interceptor. rewrite Hr1.
  change (getItem "refresh_token" (put_on_wire (request_interceptor config w) w))
    with (getItem "refresh_token" w).
  split; [| split].
  - intros e Ht He. rewrite Ht, He. simpl.
    eexists. split; [done |]. unfold getItem. simpl.
    split; [| split; [| done]].
    + rewrite lookup_delete_ne by done. apply lookup_delete_eq.
    + apply lookup_delete_eq.
  - intros Ht. by rewrite Ht.
  - unfold AuthContext.refreshToken, ApiClient.refreshToken, then_.
    destruct (client_returns server_r refresh_endpoint n
                (request "post" "/auth/refresh/" [("refresh", getItem "refresh_token" w)]) w)
      as (r & w' & ->).
    destruct r as [[status access] | e]; eexists _, _; (split; [done |]); [done |].
    split; [done |]. unfold getItem. simpl.
    split; [| split; [| done]].
    + rewrite lookup_delete_ne by done. apply lookup_delete_eq.
    + apply lookup_delete_eq.
Qed.

End RefreshFailure.

(** The amended property at a browser that holds both tokens, with the
    refresh endpoint down: the tokens are gone and the page is the login
    page; and [AuthContext.refreshToken] against a refresh route that
    does not answer throws that failure again after logging out. *)
Lemma refresh_failure_clears_credentials_witness :
  (∃ w',
     ApiClient.client Sample.always_401 Sample.refresh_rejected 2 Sample.get_tasks
       Sample.browser_logged_in
     = Some (Js.Rejected (Js.AxiosError (Some 401)), w')
     ∧ ApiClient.getItem "access_token" w' = None
     ∧ ApiClient.getItem "refresh_token" w' = None
     ∧ ApiClient.location_href w' = "/login")
  ∧ ∃ st' w',
      AuthContext.refreshToken Sample.refresh_rejected (λ _ _, ApiClient.NoResponse) 3
        {| AuthContext.user := None; AuthContext.isAuthenticated := true;
           AuthContext.isLoading := false |} Sample.browser_logged_in
      = Some (Js.Rejected (Js.AxiosError None), st', w')
      ∧ AuthContext.isAuthenticated st' = false
      ∧ ApiClient.getItem "access_token" w' = None
      ∧ ApiClient.getItem "refresh_token" w' = None.
Proof.
  destruct (refresh_failure_clears_credentials
              Sample.always_401 Sample.refresh_rejected
              (λ _ _, ApiClient.NoResponse) 1 Sample.get_tasks Sample.browser_logged_in
              {| AuthContext.user := None; AuthContext.isAuthenticated := true;
                 AuthContext.isLoading := false |})
    as (H & _ & r & w1 & Hrt & Hm).
  - reflexivity.
  - reflexivity.
  - split.
    + destruct (H (Js.AxiosError (Some 401))) as (w' & H1 & H2 & H3 & H4 & _).
      * vm_compute. reflexivity.
      * reflexivity.
      * exists w'. repeat split; assumption.
    + vm_compute in Hrt. injection Hrt as Hr Hw. subst r.
      destruct Hm as (H1 & H2 & H3 & H4 & _).
      eexists _, _. split; [exact H1 |]. repeat split; assumption.
Defined.

(** ** The API client: shapes of a list response *)

Section ListResponse.

Import ApiClient.

(** What [getProjectTasks] makes of each shape of body. *)
Lemma getProjectTasks_return_shapes (body : Js.Value Task) :
  getProjectTasks_return body
  = match body with
    | Js.Array l => Js.Resolved l
    | Js.Object m =>
        match m !! "results" with
        | Some (Js.Array l) => Js.Resolved l
        | _ => match m !! "data" with
               | Some (Js.Array l) => Js.Resolved l
               | _ => Js.Resolved []
               end
        end
    | Js.Undefined | Js.Null => Js.Resolved []
    | Js.Bool b => if b then Js.Rejected Js.TypeError else Js.Resolved []
    | Js.Number n => if bool_decide (n = 0) then Js.Resolved [] else Js.Rejected Js.TypeError
    | Js.String s => if bool_decide (s = "") then Js.Resolved [] else Js.Rejected Js.TypeError
    end.
Proof.
  destruct body as [| | b | n | s | l | m]; try done.
  - by destruct b.
  - unfold getProjectTasks_return. simpl. by case_bool_decide.
  - unfold getProjectTasks_return. simpl. by case_bool_decide.
  - unfold getProjectTasks_return. simpl.
    destruct (m !! "results") as [[| | | | | l |] |] eqn:Er;
      simpl; try (rewrite bool_decide_eq_true_2 by eauto; simpl);
      try done;
      destruct (m !! "data") as [[| | | | | l' |] |] eqn:Ed;
      simpl; try (rewrite bool_decide_eq_true_2 by eauto; simpl);
      try (rewrite bool_decide_eq_false_2 by (by intros [? ?])); done.
Qed.

(** What [getProjects] makes of each shape of body. *)
Lemma getProjects_return_shapes (body : Js.Value Project.t) :
  getProjects_return body
  = match body with
    | Js.Array l => Js.Resolved l
    | Js.Object m =>
        match m !! "results" with
        | Some (Js.Array l) => Js.Resolved l
        | _ => match m !! "data" with
               | Some (Js.Array l) => Js.Resolved l
               | _ => Js.Resolved []
               end
        end
    | Js.Undefined | Js.Null => Js.Resolved []
    | Js.Bool b => if b then Js.Rejected Js.TypeError else Js.Resolved []
    | Js.Number n => if bool_decide (n = 0) then Js.Resolved [] else Js.Rejected Js.TypeError
    | Js.String s => if bool_decide (s = "") then Js.Resolved [] else Js.Rejected Js.TypeError
    end.
Proof.
  destruct body as [| | b | n | s | l | m]; try done.
  - by destruct b.
  - unfold getProjects_return. simpl. by case_bool_decide.
  - unfold getProjects_return. simpl. by case_bool_decide.
  - unfold getProjects_return. simpl.
    destruct (m !! "results") as [[| | | | | l |] |] eqn:Er;
      simpl; try (rewrite bool_decide_eq_true_2 by eauto; simpl);
      try done;
      destruct (m !! "data") as [[| | | | | l' |] |] eqn:Ed;
      simpl; try (rewrite bool_decide_eq_true_2 by eauto; simpl);
      try (rewrite bool_decide_eq_false_2 by (by intros [? ?])); done.
Qed.

(** C6.  A body that is a non-empty string is none of the three shapes,
    and neither method returns the empty list for it: the [in] operator
    throws, and the promise of [getProjects] or [getProjectTasks] is
    rejected with a [TypeError].  The same test written with a property
    read, in [fetchTasks], does yield the empty list. *)
Theorem list_response_of_string_body :
  getProjects_return (Js.String "<!doctype html>") = Js.Rejected Js.TypeError
  ∧ getProjectTasks_return (Js.String "<!doctype html>") = Js.Rejected Js.TypeError
  ∧ (∃ w', getProjectTasks Sample.refresh_rejected Sample.html_page 2 7
             Sample.browser_logged_in = Some (Js.Rejected Js.TypeError, w'))
  ∧ Board.fetchTasks_try (Js.String "<!doctype html>") = Js.Resolved [].
Proof.
  rewrite getProjects_return_shapes, getProjectTasks_return_shapes.
  repeat split.
  eexists. vm_compute. reflexivity.
Qed.

End ListResponse.

(** ** Loading the collection *)

Section FetchTasks.

Import Board.

Variable refresh_endpoint : ApiClient.Browser → string → Js.Outcome string.
Variable server : ApiClient.Browser → ApiClient.RequestConfig
                  → ApiClient.Reply (Js.Value Task).

(** C7.  For every project, server and state, [fetchTasks] runs to its
    end.  When [getProjectTasks] is rejected the collection afterwards is
    empty, whatever it held, the loading message is set, and the
    component renders the error box with the retry button that runs
    [fetchTasks] again.  When it resolves with a list, the collection is
    that list and the error is cleared.  The same holds for the part of
    the handler after the [await] from any state. *)
Theorem fetchTasks_replaces_collection
    (n : nat) (projectId : Z) (st : State) (w : ApiClient.Browser) :
  ∃ r w' st',
    ApiClient.getProjectTasks refresh_endpoint server (S (S n)) projectId w
    = Some (r, w')
    ∧ fetchTasks refresh_endpoint server (S (S n)) projectId st w = Some (st', w')
    ∧ loading st' = false
    ∧ match r with
      | Js.Resolved l => tasks st' = l ∧ error st' = ""
      | Js.Rejected _ =>
          tasks st' = [] ∧ error st' = fetch_error
          ∧ render st' = ErrorBox fetch_error run_fetchTasks
      end
    ∧ (∀ e st0,
         tasks (fetchTasks_resume (Js.Rejected e) st0) = []
         ∧ error (fetchTasks_resume (Js.Rejected e) st0) = fetch_error
         ∧ render (fetchTasks_resume (Js.Rejected e) st0)
           = ErrorBox fetch_error run_fetchTasks)
    ∧ (∀ l st0, tasks (fetchTasks_resume (Js.Resolved (Js.Array l)) st0) = l).
Proof.
  unfold fetchTasks, ApiClient.getProjectTasks, ApiClient.then_.
  destruct (client_returns server refresh_endpoint n
              (ApiClient.request "get" ("/projects/" +:+ pretty projectId +:+ "/tasks/") [])
              w) as (r & w' & ->).
  destruct r as [[status body] | e].
  - destruct (ApiClient.getProjectTasks_return body) as [l | e];
      eexists _, _, _; (split; [done |]); (split; [done |]); by repeat split.
  - eexists _, _, _. (split; [done |]); (split; [done |]). by repeat split.
Qed.

End FetchTasks.

(** ** Permission evaluator *)

Section PermissionEvaluator.

Import Permission.

(** C3.  On the evaluator of section 4.1: the update of a project is
    allowed exactly to staff, superusers and the owner; and an actor who
    is a member, not the owner and neither staff nor superuser is denied
    the update and the deletion of the project, and allowed to read it
    and to create, read, update and delete its tasks. *)
Theorem project_update_permission (a : Actor) (p : ProjectRecord) :
  (evaluate a (OnProject p) update = ALLOW
   ↔ is_staff a = true ∨ is_superuser a = true ∨ actor_id a = owner p)
  ∧ (is_staff a = false → is_superuser a = false →
     actor_id a ∈ members p → actor_id a ≠ owner p →
     evaluate a (OnProject p) update = DENY
     ∧ evaluate a (OnProject p) delete = DENY
     ∧ evaluate a (OnProject p) read = ALLOW
     ∧ ∀ op, evaluate a (OnTask p) op = ALLOW).
Proof.
  unfold evaluate, is_owner, is_member, allow_if. split.
  - destruct (is_superuser a), (is_staff a); simpl; try (split; auto; fail).
    case_bool_decide; split; try done; auto.
    intros [? | [? | ?]]; done.
  - intros -> -> Hm Ho. simpl.
    rewrite (bool_decide_eq_false_2 _ Ho), (bool_decide_eq_true_2 _ Hm).
    repeat split. by intros [].
Qed.

Lemma project_update_permission_witness :
  evaluate Sample.member (OnProject Sample.project) update = DENY
  ∧ evaluate Sample.member (OnProject Sample.project) delete = DENY
  ∧ evaluate Sample.member (OnProject Sample.project) read = ALLOW
  ∧ ∀ op, evaluate Sample.member (OnTask Sample.project) op = ALLOW.
Proof.
  apply (proj2 (project_update_permission Sample.member Sample.project)).
  - reflexivity.
  - reflexivity.
  - apply (bool_decide_unpack _). vm_compute. exact I.
  - simpl. lia.
Defined.

End PermissionEvaluator.

(** * Further properties *)

(** ** The API client: what a request does to the browser *)

Section ClientEffects.

Import ApiClient.

Context {B : Type}.
Variable server : Browser → RequestConfig → Reply B.
Variable refresh_endpoint : Browser → string → Js.Outcome string.

(** The three things a request can do to storage and location: nothing;
    store a new access token after a granted refresh; remove both tokens
    and go to the login page after a refused one. *)
Lemma client_effects (n : nat) (config : RequestConfig) (w : Browser) :
  ∃ r w',
    client server refresh_endpoint (S (S n)) config w = Some (r, w')
    ∧ ((localStorage w' = localStorage w
        ∧ location_href w' = location_href w
        ∧ refresh_posts w' = refresh_posts w)
       ∨ (∃ access,
            localStorage w' = <["access_token" := access]> (localStorage w)
            ∧ location_href w' = location_href w
            ∧ truthy_item (getItem "refresh_token" w) = true)
       ∨ (localStorage w' = delete "refresh_token" (delete "access_token" (localStorage w))
          ∧ location_href w' = "/login"
          ∧ r = Js.Rejected (Js.AxiosError (Some 401)))).
Proof.
  rewrite client_S.
  set (c1 := request_interceptor config w).
  assert (∀ status,
    ∃ r w',
      error_interceptor refresh_endpoint (client server refresh_endpoint (S n)) status
        c1 (put_on_wire c1 w) = Some (r, w')
      ∧ ((localStorage w' = localStorage w
          ∧ location_href w' = location_href w
          ∧ refresh_posts w' = refresh_posts w)
         ∨ (∃ access,
              localStorage w' = <["access_token" := access]> (localStorage w)
              ∧ location_href w' = location_href w
              ∧ truthy_item (getItem "refresh_token" w) = true)
         ∨ (localStorage w' = delete "refresh_token" (delete "access_token" (localStorage w))
            ∧ location_href w' = "/login"
            ∧ r = Js.Rejected (Js.AxiosError (Some 401))))) as Herr.
  { intros status. unfold error_interceptor.
    destruct (bool_decide (status = Some 401) && negb (_retry c1)) eqn:Hcond;
      [| eexists _, _; split; [done |]; by left].
    apply andb_true_iff in Hcond as [Hs _].
    apply bool_decide_eq_true_1 in Hs as ->.
    change (getItem "refresh_token" (put_on_wire c1 w)) with (getItem "refresh_token" w).
    destruct (truthy_item (getItem "refresh_token" w)) eqn:Ht;
      [| eexists _, _; split; [done |]; by left].
    destruct (refresh_endpoint _ _) as [access | e].
    - rewrite client_marked by done. eexists _, _. split; [done |].
      right; left. by exists access.
    - eexists _, _. split; [done |]. right; right. done. }
  destruct (server w c1) as [status data |]; [| apply Herr].
  destruct (validateStatus status); [| apply Herr].
  eexists _, _. split; [done |]. by left.
Qed.

(** X1.  Whatever the server and the refresh endpoint do, a request
    through the client leaves every key of [localStorage] other than the
    two tokens as it was, and leaves the location as it was unless it
    has removed both tokens, in which case the location is the login
    page and the request is rejected with the 401. *)
Theorem client_touches_only_tokens (n : nat) (config : RequestConfig) (w : Browser) :
  ∃ r w',
    client server refresh_endpoint (S (S n)) config w = Some (r, w')
    ∧ delete "refresh_token" (delete "access_token" (localStorage w'))
      = delete "refresh_token" (delete "access_token" (localStorage w))
    ∧ (location_href w' = location_href w
       ∨ (location_href w' = "/login"
          ∧ getItem "access_token" w' = None
          ∧ getItem "refresh_token" w' = None
          ∧ r = Js.Rejected (Js.AxiosError (Some 401)))).
Proof.
  destruct (client_effects n config w)
    as (r & w' & Hc & [(Hs & Hl & _) | [(access & Hs & Hl & _) | (Hs & Hl & Hr)]]);
    exists r, w'; (split; [exact Hc |]); rewrite Hs.
  - split; [done | by left].
  - split; [| by left]. by rewrite delete_insert_eq.
  - split.
    + apply map_eq. intros k. rewrite !lookup_delete.
      by repeat case_decide.
    + right. unfold getItem. rewrite Hs.
      split; [done |]. split; [| split; [| done]].
      * rewrite lookup_delete_ne by done. apply lookup_delete_eq.
      * apply lookup_delete_eq.
Qed.

(** A reply other than 401 goes through the error handler unchanged. *)
Lemma client_pass_through (n : nat) (config : RequestConfig) (w : Browser) :
  response_status (server w (request_interceptor config w)) ≠ Some 401 →
  client server refresh_endpoint (S n) config w
  = Some (settle (server w (request_interceptor config w)),
          put_on_wire (request_interceptor config w) w).
Proof.
  intros Hs. rewrite client_S. unfold settle, error_interceptor.
  destruct (server w (request_interceptor config w)) as [status data |]; simpl in *.
  - destruct (validateStatus status); [done |].
    rewrite bool_decide_eq_false_2; [done |]. congruence.
  - done.
Qed.

(** X2.  An answer other than 401 (another error status, a success, or no
    answer at all) is handed to the caller as it is, after one send: no
    refresh call is made and storage and location are untouched. *)
Theorem other_errors_pass_through (n : nat) (config : RequestConfig) (w : Browser) :
  response_status (server w (request_interceptor config w)) ≠ Some 401 →
  ∃ w',
    client server refresh_endpoint (S n) config w
    = Some (settle (server w (request_interceptor config w)), w')
    ∧ wire w' = request_interceptor config w :: wire w
    ∧ refresh_posts w' = refresh_posts w
    ∧ localStorage w' = localStorage w
    ∧ location_href w' = location_href w.
Proof.
  intros Hs. rewrite client_pass_through by done. by eexists.
Qed.

(** X3.  Let an unmarked request be answered 401 while a refresh token is
    stored, let the refresh endpoint grant [access], and let the server
    answer 2xx to a request that carries [access].  Then the caller gets
    that answer; the request went out twice, the second time under
    [access]; one refresh call was made; [access] is the stored access
    token, and the refresh token and the location are as before. *)
Theorem expired_token_is_refreshed
    (n : nat) (config : RequestConfig) (w : Browser)
    (access : string) (status : Z) (data : B) :
  _retry config = false →
  response_status (server w (request_interceptor config w)) = Some 401 →
  truthy_item (getItem "refresh_token" w) = true →
  refresh_endpoint (put_on_wire (request_interceptor config w) w)
    (default "" (getItem "refresh_token" w)) = Js.Resolved access →
  (∀ w0 c, Authorization c = Some ("Bearer " +:+ access) →
           server w0 c = Response status data) →
  validateStatus status = true →
  ∃ w' again,
    client server refresh_endpoint (S (S n)) config w
    = Some (Js.Resolved (status, data), w')
    ∧ wire w' = again :: request_interceptor config w :: wire w
    ∧ Authorization again = Some ("Bearer " +:+ access)
    ∧ _retry again = true
    ∧ method again = method config ∧ url again = url config ∧ body again = body config
    ∧ refresh_posts w' = S (refresh_posts w)
    ∧ getItem "access_token" w' = Some access
    ∧ getItem "refresh_token" w' = getItem "refresh_token" w
    ∧ location_href w' = location_href w.
Proof.
  intros Hr Hs Ht Hg Hok Hv.
  set (c1 := request_interceptor config w) in *.
  assert (_retry c1 = false) as Hr1.
  { subst c1. by rewrite request_interceptor_retry. }
  assert (method c1 = method config ∧ url c1 = url config ∧ body c1 = body config)
    as (Hm & Hu & Hb).
  { subst c1. unfold request_interceptor.
    destruct (truthy_item (getItem "access_token" w)); by repeat split. }
  rewrite client_S. fold c1.
  destruct (server w c1) as [status1 data1 |] eqn:Hreply; [| done].
  injection Hs as ->.
  change (validateStatus 401) with false. cbv iota.
  unfold error_interceptor. rewrite Hr1.
  rewrite bool_decide_eq_true_2 by done. cbn [andb negb].
  change (getItem "refresh_token" (put_on_wire c1 w)) with (getItem "refresh_token" w).
  rewrite Ht, Hg. rewrite client_marked by done.
  set (w2 := setItem "access_token" access (count_refresh_post (put_on_wire c1 w))).
  set (c2 := request_interceptor
               (set_Authorization ("Bearer " +:+ access) (set_retry c1)) w2).
  assert (Authorization c2 = Some ("Bearer " +:+ access)) as Ha.
  { subst c2. unfold request_interceptor.
    destruct (truthy_item (getItem "access_token" w2)) eqn:Htok; [| done].
    simpl. unfold getItem. subst w2. simpl. by rewrite lookup_insert_eq. }
  assert (_retry c2 = true ∧ method c2 = method c1 ∧ url c2 = url c1 ∧ body c2 = body c1)
    as (Hr2 & Hm2 & Hu2 & Hb2).
  { subst c2. unfold request_interceptor.
    destruct (truthy_item (getItem "access_token" w2)); by repeat split. }
  rewrite (Hok w2 c2 Ha). simpl. rewrite Hv.
  exists (put_on_wire c2 w2), c2.
  repeat split; try done; try congruence.
  - unfold getItem. simpl. apply lookup_insert_eq.
  - unfold getItem. simpl. by rewrite lookup_insert_ne.
Qed.

End ClientEffects.

Lemma other_errors_pass_through_witness :
  ∃ w',
    ApiClient.client Sample.always_500 Sample.refresh_granted 1 Sample.get_tasks
      Sample.browser_logged_in
    = Some (Js.Rejected (Js.AxiosError (Some 500)), w')
    ∧ ApiClient.refresh_posts w' = 0%nat
    ∧ ApiClient.localStorage w' = ApiClient.localStorage Sample.browser_logged_in.
Proof.
  destruct (other_errors_pass_through Sample.always_500 Sample.refresh_granted 0
              Sample.get_tasks Sample.browser_logged_in)
    as (w' & H1 & _ & H2 & H3 & _).
  - simpl. discriminate.
  - exists w'. repeat split; assumption.
Defined.

Lemma expired_token_is_refreshed_witness :
  ∃ w' again,
    ApiClient.client Sample.accepts_fresh Sample.refresh_granted 2 Sample.get_tasks
      Sample.browser_logged_in
    = Some (Js.Resolved (200, Js.Array [Sample.task 1 TO_DO]), w')
    ∧ ApiClient.wire w'
      = [again; ApiClient.request_interceptor Sample.get_tasks Sample.browser_logged_in]
    ∧ ApiClient.getItem "access_token" w' = Some "fresh".
Proof.
  destruct (expired_token_is_refreshed Sample.accepts_fresh Sample.refresh_granted 0
              Sample.get_tasks Sample.browser_logged_in "fresh" 200
              (Js.Array [Sample.task 1 TO_DO]))
    as (w' & again & H1 & H2 & _ & _ & _ & _ & _ & _ & H3 & _).
  - reflexivity.
  - vm_compute. reflexivity.
  - vm_compute. reflexivity.
  - reflexivity.
  - intros w0 c Hc. unfold Sample.accepts_fresh. rewrite Hc. reflexivity.
  - reflexivity.
  - exists w', again. repeat split; assumption.
Defined.

(** ** The API client: administration counts *)

Section AdminCounts.

Import ApiClient.

Variable refresh_endpoint : Browser → string → Js.Outcome string.
Variable server : Browser → RequestConfig → Reply (list Task).

Lemma filter_length_le {A} (f : A → bool) (l : list A) :
  (length (List.filter f l) ≤ length l)%nat.
Proof. induction l as [| a l IH]; simpl; [lia |]. destruct (f a); simpl; lia. Qed.

Lemma status_counts_add_up (l : list Task) :
  (length (List.filter (λ task, bool_decide (status task = TO_DO)) l)
   + length (List.filter (λ task, bool_decide (status task = IN_PROGRESS)) l)
   + length (List.filter (λ task, bool_decide (status task = DONE)) l)
   = length l)%nat.
Proof.
  induction l as [| t l IH]; [done |]. simpl.
  destruct (status t); simpl; lia.
Qed.

(** X4.  The administration figures are consistent.  Whenever
    [getAdminTasks] resolves, its three counts by status add up to its
    total, which is the number of tasks it returns: every task is
    counted in exactly one of them.  In what [getAdminUsers] and
    [getAdminProjects] compute, the total is the number of records
    received and no count exceeds it. *)
Theorem admin_counts_consistent
    (n : nat) (w : Browser)
    (users_data : list User.t) (projects_data : list ProjectWithCreator.t) :
  (∃ r w',
     getAdminTasks refresh_endpoint server (S (S n)) w = Some (r, w')
     ∧ match r with
       | Js.Resolved a =>
           (todo_tasks a + in_progress_tasks a + done_tasks a = tasks_total a)%nat
           ∧ tasks_total a = length (tasks a)
       | Js.Rejected _ => True
       end)
  ∧ users_total (getAdminUsers_return users_data) = length users_data
  ∧ (active_users (getAdminUsers_return users_data) ≤ length users_data)%nat
  ∧ (staff_users (getAdminUsers_return users_data) ≤ length users_data)%nat
  ∧ projects_total (getAdminProjects_return projects_data) = length projects_data
  ∧ (projects_with_tasks (getAdminProjects_return projects_data)
     ≤ length projects_data)%nat
  ∧ (projects_with_members (getAdminProjects_return projects_data)
     ≤ length projects_data)%nat.
Proof.
  split.
  { unfold getAdminTasks, then_.
    destruct (client_returns server refresh_endpoint n
                (request "get" "/admin/tasks/" []) w) as (r & w' & ->).
    destruct r as [[status_code response_data] | e]; eexists _, _; (split; [done |]);
      [| done].
    split; [apply status_counts_add_up | done]. }
  repeat split; try done; apply filter_length_le.
Qed.

End AdminCounts.

(** ** The authentication context *)

Section Authentication.

Import ApiClient AuthContext.

Variable refresh_endpoint : Browser → string → Js.Outcome string.

(** What a method that returns [response.data] does to the browser. *)
Lemma method_effects {B} (server : Browser → RequestConfig → Reply B)
    (n : nat) (config : RequestConfig) (w : Browser) :
  ∃ r w',
    then_ (client server refresh_endpoint (S (S n)) config w) Js.Resolved = Some (r, w')
    ∧ ((localStorage w' = localStorage w ∧ location_href w' = location_href w)
       ∨ (∃ access, localStorage w' = <["access_token" := access]> (localStorage w))
       ∨ (∃ e, r = Js.Rejected e)).
Proof.
  destruct (client_effects server refresh_endpoint n config w)
    as (r & w' & -> & H). unfold then_.
  destruct r as [[status data] | e].
  - eexists _, _. split; [done |].
    destruct H as [(? & ? & _) | [(access & ? & _) | (_ & _ & ?)]];
      [by left | right; left; by exists access | done].
  - eexists _, _. split; [done |]. right; right. by eexists.
Qed.

(** X5.  [checkAuthStatus] always returns with [isLoading] false.
    Without a stored access token it calls nothing and changes nothing
    else.  With one it calls [getMe], once, and its result follows that
    of [getMe]: when [getMe] resolves with a user, that user is set, the
    session is authenticated, the browser is as [getMe] left it and an
    access token is still stored; when [getMe] is rejected, both tokens
    are removed from the storage [getMe] left, and the user and the
    authenticated flag are as they were. *)
Theorem checkAuthStatus_outcome
    (server : Browser → RequestConfig → Reply User.t)
    (n : nat) (st : State) (w : Browser) :
  ∃ st' w',
    checkAuthStatus refresh_endpoint server (S (S n)) st w = Some (st', w')
    ∧ isLoading st' = false
    ∧ if truthy_item (getItem "access_token" w) then
        ∃ r w1,
          getMe refresh_endpoint server (S (S n)) w = Some (r, w1)
          ∧ match r with
            | Js.Resolved userData =>
                user st' = Some userData
                ∧ isAuthenticated st' = true
                ∧ w' = w1
                ∧ is_Some (getItem "access_token" w')
            | Js.Rejected _ =>
                user st' = user st
                ∧ isAuthenticated st' = isAuthenticated st
                ∧ localStorage w'
                  = delete "refresh_token" (delete "access_token" (localStorage w1))
                ∧ getItem "access_token" w' = None
                ∧ getItem "refresh_token" w' = None
                ∧ location_href w' = location_href w1
                ∧ wire w' = wire w1
            end
      else w' = w ∧ user st' = user st ∧ isAuthenticated st' = isAuthenticated st.
Proof.
  unfold checkAuthStatus, getMe.
  destruct (truthy_item (getItem "access_token" w)) eqn:Ht;
    [| by eexists _, _].
  destruct (method_effects server n (request "get" "/auth/me/" []) w)
    as (r & w1 & -> & H).
  destruct r as [userData | e].
  - eexists _, _. split; [done |]. split; [done |].
    exists (Js.Resolved userData), w1. split; [done |].
    split; [done |]. split; [done |]. split; [done |].
    unfold getItem in *.
    destruct H as [(Hs & _) | [(access & Hs) | (e & He)]]; [| | done]; rewrite Hs.
    + destruct (localStorage w !! "access_token"); [by eexists | done].
    + rewrite lookup_insert_eq. by eexists.
  - eexists _, _. split; [done |]. split; [done |].
    exists (Js.Rejected e), w1. split; [done |].
    unfold getItem. simpl.
    split; [done |]. split; [done |]. split; [done |].
    split; [| split; [| done]].
    + rewrite lookup_delete_ne by done. apply lookup_delete_eq.
    + apply lookup_delete_eq.
Qed.

(** X6.  [login] always returns with [isLoading] false.  When it returns
    normally the user is set, the session is authenticated and both
    tokens are stored.  When it throws, the user and the authenticated
    flag are as they were before the call. *)
Theorem login_outcome
    (login_server : Browser → RequestConfig → Reply AuthTokens.t)
    (me_server : Browser → RequestConfig → Reply User.t)
    (n : nat) (credentials : LoginCredentials.t) (st : State) (w : Browser) :
  ∃ r st' w',
    login refresh_endpoint login_server me_server (S (S n)) credentials st w
    = Some (r, st', w')
    ∧ isLoading st' = false
    ∧ match r with
      | Handled.Returned _ =>
          isAuthenticated st' = true ∧ is_Some (user st')
          ∧ is_Some (getItem "access_token" w')
          ∧ is_Some (getItem "refresh_token" w')
      | Handled.Threw _ =>
          user st' = user st ∧ isAuthenticated st' = isAuthenticated st
      end.
Proof.
  unfold login, ApiClient.login, getMe.
  destruct (method_effects login_server n
              (request "post" "/auth/login/"
                 [("username", Some (LoginCredentials.username credentials));
                  ("password", Some (LoginCredentials.password credentials))]) w)
    as (r1 & w1 & -> & _).
  destruct r1 as [tokens | e]; [| by eexists _, _, _].
  set (w2 := setItem "refresh_token" _ (setItem "access_token" _ w1)).
  destruct (method_effects me_server n (request "get" "/auth/me/" []) w2)
    as (r2 & w3 & -> & H).
  destruct r2 as [userData | e]; [| by eexists _, _, _].
  eexists _, _, _. split; [done |]. split; [done |].
  split; [done |]. split; [by eexists |].
  unfold getItem.
  destruct H as [(Hs & _) | [(access & Hs) | (e & He)]]; [| | done]; rewrite Hs;
    subst w2; simpl.
  - rewrite lookup_insert_ne by done. rewrite !lookup_insert_eq. by split; eexists.
  - rewrite lookup_insert_eq. rewrite lookup_insert_ne by done.
    rewrite lookup_insert_eq. by split; eexists.
Qed.

(** X7.  [login] stores the tokens before it asks for the profile.  When
    the login endpoint grants [tokens] and the profile request then gets
    no answer, or an error status other than 401, [login] throws with
    both tokens left in storage, while the user and the authenticated
    flag are as they were. *)
Theorem login_keeps_tokens_when_getMe_fails
    (login_server : Browser → RequestConfig → Reply AuthTokens.t)
    (me_server : Browser → RequestConfig → Reply User.t)
    (n : nat) (credentials : LoginCredentials.t) (st : State) (w : Browser)
    (tokens : AuthTokens.t) (e : Js.Error) :
  (∀ w0 c, login_server w0 c = Response 200 tokens) →
  (∀ w0 c, response_status (me_server w0 c) ≠ Some 401) →
  (∀ w0 c, settle (me_server w0 c) = Js.Rejected e) →
  ∃ st' w',
    login refresh_endpoint login_server me_server (S n) credentials st w
    = Some (Handled.Threw (Handled.NewError e), st', w')
    ∧ getItem "access_token" w' = Some (AuthTokens.access tokens)
    ∧ getItem "refresh_token" w' = Some (AuthTokens.refresh tokens)
    ∧ user st' = user st ∧ isAuthenticated st' = isAuthenticated st
    ∧ isLoading st' = false.
Proof.
  intros Hlogin Hme He.
  unfold login, ApiClient.login, getMe.
  rewrite client_pass_through by (rewrite Hlogin; simpl; discriminate).
  rewrite Hlogin. cbn [then_ settle].
  change (validateStatus 200) with true. cbn [then_].
  rewrite client_pass_through by apply Hme.
  rewrite He. cbn [then_].
  eexists _, _. split; [done |]. unfold getItem. simpl.
  rewrite lookup_insert_ne by done. by rewrite !lookup_insert_eq.
Qed.

(** X8.  After [logout], whatever the state was: both tokens are gone and
    every other key of storage is as it was; a second [logout] changes
    nothing; [checkAuthStatus] at the next start of the application sends
    no request and leaves the session unauthenticated; and the admin
    route redirects to the admin login page.  The admin route shows its
    children exactly when the session is authenticated and the user has
    [is_staff] or [is_superuser] set to [true]. *)
Theorem logout_ends_session
    (server : Browser → RequestConfig → Reply User.t)
    (fuel : nat) (st : State) (w : Browser) :
  localStorage (logout st w).2
  = delete "refresh_token" (delete "access_token" (localStorage w))
  ∧ getItem "access_token" (logout st w).2 = None
  ∧ getItem "refresh_token" (logout st w).2 = None
  ∧ wire (logout st w).2 = wire w
  ∧ logout (logout st w).1 (logout st w).2 = logout st w
  ∧ checkAuthStatus refresh_endpoint server fuel initial (logout st w).2
    = Some (setIsLoading false initial, (logout st w).2)
  ∧ ProtectedAdminRoute.render (logout st w).1
    = ProtectedAdminRoute.Navigate "/admin-login"
  ∧ ProtectedAdminRoute.render (setIsLoading false initial)
    = ProtectedAdminRoute.Navigate "/admin-login"
  ∧ (ProtectedAdminRoute.render st = ProtectedAdminRoute.Children
     ↔ isAuthenticated st = true
       ∧ ∃ u, user st = Some u
              ∧ (User.is_staff u = Some true ∨ User.is_superuser u = Some true)).
Proof.
  assert (getItem "access_token" (logout st w).2 = None) as Ha.
  { unfold getItem. simpl. rewrite lookup_delete_ne by done. apply lookup_delete_eq. }
  split; [done |]. split; [exact Ha |].
  split; [apply lookup_delete_eq |]. split; [done |].
  split.
  { unfold logout. simpl. f_equal. unfold removeItem. simpl. f_equal.
    apply map_eq. intros k. rewrite !lookup_delete. by repeat case_decide. }
  split.
  { unfold checkAuthStatus. by rewrite Ha. }
  split; [done |]. split; [done |].
  unfold ProtectedAdminRoute.render, ProtectedAdminRoute.is_staff,
    ProtectedAdminRoute.is_superuser, truthy_flag.
  destruct (isAuthenticated st); simpl; [| split; [done | by intros [? _]]].
  destruct (user st) as [u |]; simpl; [| split; [done | by intros (_ & u' & ? & _)]].
  split.
  - intros Hc. split; [done |]. exists u. split; [done |].
    destruct (User.is_staff u) as [[] |]; [by left | |];
      (destruct (User.is_superuser u) as [[] |]; [by right | done | done]).
  - intros (_ & u' & Hu & Hflag). injection Hu as <-.
    by destruct Hflag as [-> | ->]; [| destruct (default false (User.is_staff u))].
Qed.

End Authentication.

Lemma login_keeps_tokens_when_getMe_fails_witness :
  ∃ st' w',
    AuthContext.login Sample.refresh_granted Sample.login_granted Sample.me_broken 1
      Sample.credentials AuthContext.initial Sample.browser_without_refresh_token
    = Some (Handled.Threw (Handled.NewError (Js.AxiosError None)), st', w')
    ∧ ApiClient.getItem "access_token" w' = Some "new-access"
    ∧ ApiClient.getItem "refresh_token" w' = Some "new-refresh"
    ∧ AuthContext.isAuthenticated st' = false.
Proof.
  destruct (login_keeps_tokens_when_getMe_fails Sample.refresh_granted
              Sample.login_granted Sample.me_broken 0 Sample.credentials
              AuthContext.initial Sample.browser_without_refresh_token
              {| AuthTokens.access := "new-access"; AuthTokens.refresh := "new-refresh" |}
              (Js.AxiosError None))
    as (st' & w' & H1 & H2 & H3 & _ & H4 & _).
  - reflexivity.
  - simpl. discriminate.
  - reflexivity.
  - exists st', w'. repeat split; assumption.
Defined.

(** ** The board and its columns *)

Section Columns.

Import Board.

(** The three columns hold the collection, each task once. *)
Lemma filteredTasks_permutation (l : list Task) :
  (KanbanColumn.filteredTasks TO_DO l ++ KanbanColumn.filteredTasks IN_PROGRESS l
     ++ KanbanColumn.filteredTasks DONE l) ≡ₚ l.
Proof.
  unfold KanbanColumn.filteredTasks.
  induction l as [| t l IH]; [done |]. simpl.
  destruct (status t); simpl.
  - by rewrite IH.
  - rewrite <- Permutation_middle. by rewrite IH.
  - rewrite app_assoc. rewrite <- Permutation_middle. rewrite <- app_assoc.
    by rewrite IH.
Qed.

(** A column filtered for another column's status is empty. *)
Lemma filteredTasks_twice c1 c2 l :
  KanbanColumn.filteredTasks c1 (KanbanColumn.filteredTasks c2 l)
  = if bool_decide (c1 = c2) then KanbanColumn.filteredTasks c2 l else [].
Proof.
  unfold KanbanColumn.filteredTasks.
  induction l as [| t l IH]; simpl; [by case_bool_decide |].
  destruct (decide (status t = c2)) as [Ht | Ht].
  - rewrite (bool_decide_eq_true_2 _ Ht). simpl. rewrite IH.
    case_bool_decide as Hc.
    + subst. by rewrite bool_decide_eq_true_2.
    + rewrite bool_decide_eq_false_2; [done | congruence].
  - by rewrite (bool_decide_eq_false_2 _ Ht).
Qed.

(** The cards of the other tasks stay where they are when a status is
    written. *)
Lemma filteredTasks_move_others k s column l :
  List.filter (λ t, negb (bool_decide (id t = k)))
    (KanbanColumn.filteredTasks column (move_status k s l))
  = List.filter (λ t, negb (bool_decide (id t = k)))
      (KanbanColumn.filteredTasks column l).
Proof.
  unfold KanbanColumn.filteredTasks, move_status.
  induction l as [| t l IH]; [done |]. cbn [fmap list_fmap List.filter].
  destruct (decide (id t = k)) as [Hk | Hk].
  - rewrite (bool_decide_eq_true_2 _ Hk).
    destruct (bool_decide (status (with_status t s) = column));
      destruct (bool_decide (status t = column)); cbn [List.filter];
      rewrite ?(bool_decide_eq_true_2 (id (with_status t s) = k)) by done;
      rewrite ?(bool_decide_eq_true_2 _ Hk); cbn [negb]; exact IH.
  - rewrite (bool_decide_eq_false_2 _ Hk).
    destruct (bool_decide (status t = column)); cbn [List.filter]; [| exact IH].
    rewrite (bool_decide_eq_false_2 _ Hk). cbn [negb]. by rewrite IH.
Qed.

(** The cards of the task written to are all in the column of the new
    status. *)
Lemma filteredTasks_move_self k s column l :
  List.filter (λ t, bool_decide (id t = k))
    (KanbanColumn.filteredTasks column (move_status k s l))
  = if bool_decide (column = s)
    then (λ t, with_status t s) <$> List.filter (λ t, bool_decide (id t = k)) l
    else [].
Proof.
  unfold KanbanColumn.filteredTasks, move_status.
  induction l as [| t l IH]; [by case_bool_decide |].
  cbn [fmap list_fmap List.filter].
  destruct (decide (id t = k)) as [Hk | Hk].
  - rewrite (bool_decide_eq_true_2 _ Hk). cbn [status with_status].
    destruct (decide (column = s)) as [-> | Hc].
    + rewrite (bool_decide_eq_true_2 (s = s)) in * by done.
      cbn [List.filter fmap list_fmap].
      rewrite (bool_decide_eq_true_2 (id (with_status t s) = k)) by done.
      by rewrite IH.
    + rewrite (bool_decide_eq_false_2 (column = s)) in * by done.
      rewrite (bool_decide_eq_false_2 (s = column)) by done. exact IH.
  - rewrite (bool_decide_eq_false_2 _ Hk).
    destruct (bool_decide (status t = column)); cbn [List.filter]; [| exact IH].
    by rewrite (bool_decide_eq_false_2 _ Hk).
Qed.

(** With unique ids a member is the only task with its id. *)
Lemma filter_id_member l T :
  NoDup (id <$> l) → T ∈ l → List.filter (λ t, bool_decide (id t = id T)) l = [T].
Proof.
  induction l as [| u l IH]; intros Hnd Hin; [by apply elem_of_nil in Hin |].
  apply NoDup_cons in Hnd as [Hu Hnd]. simpl.
  assert (∀ v, v ∈ l → id v ≠ id u) as Hfresh.
  { intros v Hv Heq. apply Hu. rewrite <- Heq. by apply list_elem_of_fmap_2. }
  apply elem_of_cons in Hin as [-> | Hin].
  - rewrite bool_decide_eq_true_2 by done. f_equal.
    clear IH Hu Hnd. induction l as [| v l IH]; [done |]. simpl.
    rewrite bool_decide_eq_false_2.
    + apply IH. intros x Hx. apply Hfresh. by right.
    + apply Hfresh. by left.
  - rewrite bool_decide_eq_false_2; [by apply IH |].
    intros Heq. by apply (Hfresh T Hin).
Qed.

(** X9.  The three columns partition the collection: together they hold
    exactly its tasks, each once, so their sizes add up to its size; a
    column holds no task of another column; and when the board is shown,
    the cards of each column are the ids of its tasks, in the order of
    the collection. *)
Theorem columns_partition (st : State) :
  (KanbanColumn.filteredTasks TO_DO (tasks st)
     ++ KanbanColumn.filteredTasks IN_PROGRESS (tasks st)
     ++ KanbanColumn.filteredTasks DONE (tasks st)) ≡ₚ tasks st
  ∧ (length (KanbanColumn.filteredTasks TO_DO (tasks st))
     + length (KanbanColumn.filteredTasks IN_PROGRESS (tasks st))
     + length (KanbanColumn.filteredTasks DONE (tasks st)) = length (tasks st))%nat
  ∧ (∀ c1 c2,
       KanbanColumn.filteredTasks c1 (KanbanColumn.filteredTasks c2 (tasks st))
       = if bool_decide (c1 = c2) then KanbanColumn.filteredTasks c2 (tasks st) else [])
  ∧ render st
    = (if loading st then Spinner
       else if truthy_string (error st) then ErrorBox (error st) run_fetchTasks
       else Columns
              [(TO_DO, id <$> KanbanColumn.filteredTasks TO_DO (tasks st));
               (IN_PROGRESS, id <$> KanbanColumn.filteredTasks IN_PROGRESS (tasks st));
               (DONE, id <$> KanbanColumn.filteredTasks DONE (tasks st))]).
Proof.
  split; [apply filteredTasks_permutation |].
  split.
  { rewrite <- (Permutation_length (filteredTasks_permutation (tasks st))).
    rewrite !length_app. lia. }
  split; [intros c1 c2; apply filteredTasks_twice |].
  done.
Qed.

(** X10.  Let [T] be a task of a collection with unique ids.  After its
    status is written as [S'], its card, with the new status and all its
    other fields, is in column [S'] and in no other column, and the cards
    of all other tasks are in the columns and in the order they were. *)
Theorem move_changes_column (l : list Task) (T : Task) (S' : TaskStatus) :
  T ∈ l → NoDup (id <$> l) →
  (∀ column,
     List.filter (λ t, bool_decide (id t = id T))
       (KanbanColumn.filteredTasks column (move_status (id T) S' l))
     = if bool_decide (column = S') then [with_status T S'] else [])
  ∧ (∀ column,
       List.filter (λ t, negb (bool_decide (id t = id T)))
         (KanbanColumn.filteredTasks column (move_status (id T) S' l))
       = List.filter (λ t, negb (bool_decide (id t = id T)))
           (KanbanColumn.filteredTasks column l)).
Proof.
  intros Hin Hnd. split; intros column.
  - rewrite filteredTasks_move_self, filter_id_member by done. done.
  - apply filteredTasks_move_others.
Qed.

Lemma move_changes_column_witness :
  List.filter (λ t, bool_decide (id t = 1))
    (KanbanColumn.filteredTasks DONE (move_status 1 DONE (tasks Sample.board)))
  = [Sample.task 1 DONE]
  ∧ List.filter (λ t, bool_decide (id t = 1))
      (KanbanColumn.filteredTasks TO_DO (move_status 1 DONE (tasks Sample.board)))
    = [].
Proof.
  destruct (move_changes_column (tasks Sample.board) (Sample.task 1 TO_DO) DONE) as [H _].
  - simpl. apply elem_of_cons. by left.
  - simpl. apply (bool_decide_unpack (NoDup [1; 2])). vm_compute. exact I.
  - split; [exact (H DONE) | exact (H TO_DO)].
Defined.

End Columns.

(** ** The board: a drag that succeeds, a deletion, the column's guard *)

Section BoardMoves.

Import Board.

(** X11.  Let [T] be a task of the collection (ids are unique) picked up
    and dropped on the column of another status [S'].  While it is
    dragged the overlay holds [T]; the drop clears the overlay, issues
    the request and shows [S'] at once.  When the request succeeds the
    state stays as the drop left it, whatever task the server sent back:
    [T] has status [S'], the ids and the order of the collection, the
    error and the loading flag are as before the drag. *)
Theorem confirmed_drag_keeps_optimistic_state
    (st : State) (T : Task) (S' : TaskStatus) :
  T ∈ tasks st → NoDup (id <$> tasks st) → status T ≠ S' →
  activeTask (handleDragStart (tasks st) (id T) st) = Some T
  ∧ ∃ st1 p,
      handleDragEnd_begin (tasks st) {| active_id := id T; over := Some S' |}
        (handleDragStart (tasks st) (id T) st) = (st1, Some p)
      ∧ activeTask st1 = None
      ∧ (∀ server_task, handleDragEnd_resume p (Js.Resolved server_task) st1 = st1)
      ∧ status_of (id T) (tasks st1) = Some S'
      ∧ with_status T S' ∈ KanbanColumn.filteredTasks S' (tasks st1)
      ∧ id <$> tasks st1 = id <$> tasks st
      ∧ error st1 = error st
      ∧ loading st1 = loading st.
Proof.
  intros Hin Hnd Hne.
  pose proof (find_task_member _ _ Hnd Hin) as Hfind.
  split; [unfold handleDragStart; by rewrite Hfind |].
  eexists _, _. split.
  { unfold handleDragEnd_begin, handleDragStart. simpl.
    rewrite Hfind. by rewrite bool_decide_eq_false_2. }
  simpl. split; [done |]. split; [done |].
  split; [by rewrite status_of_move_status, Hfind |].
  split.
  { unfold KanbanColumn.filteredTasks. apply list_elem_of_In, filter_In.
    split; [| by apply bool_decide_eq_true_2].
    apply list_elem_of_In. unfold move_status.
    apply list_elem_of_fmap. exists T. by rewrite bool_decide_eq_true_2. }
  split; [apply move_status_ids | done].
Qed.

Lemma confirmed_drag_keeps_optimistic_state_witness :
  ∃ st1 p,
    handleDragEnd_begin (tasks Sample.board) {| active_id := 1; over := Some DONE |}
      (handleDragStart (tasks Sample.board) 1 Sample.board) = (st1, Some p)
    ∧ status_of 1 (tasks st1) = Some DONE
    ∧ handleDragEnd_resume p (Js.Resolved (Sample.task 1 DONE)) st1 = st1.
Proof.
  destruct (confirmed_drag_keeps_optimistic_state Sample.board (Sample.task 1 TO_DO) DONE)
    as (_ & st1 & p & H1 & _ & H2 & H3 & _).
  - simpl. apply elem_of_cons. by left.
  - simpl. apply (bool_decide_unpack (NoDup [1; 2])). vm_compute. exact I.
  - simpl. discriminate.
  - exists st1, p. split; [exact H1 |]. split; [exact H3 | apply H2].
Defined.

(** X12.  Let [T] be a task of the collection (ids are unique).  When its
    deletion is confirmed the collection has one task less, no task with
    [T]'s id, and every other task is found as before and shown in the
    column and in the order it was; a second confirmation for the same id
    changes nothing more. *)
Theorem delete_removes_one_card (st : State) (T : Task) :
  T ∈ tasks st → NoDup (id <$> tasks st) →
  (length (tasks (handleTaskDelete_resume (id T) (Js.Resolved ()) st)) + 1
   = length (tasks st))%nat
  ∧ find_task (id T) (tasks (handleTaskDelete_resume (id T) (Js.Resolved ()) st)) = None
  ∧ (∀ column,
       KanbanColumn.filteredTasks column
         (tasks (handleTaskDelete_resume (id T) (Js.Resolved ()) st))
       = List.filter (λ t, negb (bool_decide (id t = id T)))
           (KanbanColumn.filteredTasks column (tasks st)))
  ∧ (∀ column,
       List.filter (λ t, bool_decide (id t = id T))
         (KanbanColumn.filteredTasks column (tasks st))
       = if bool_decide (column = status T) then [T] else [])
  ∧ handleTaskDelete_resume (id T) (Js.Resolved ())
      (handleTaskDelete_resume (id T) (Js.Resolved ()) st)
    = handleTaskDelete_resume (id T) (Js.Resolved ()) st.
Proof.
  intros Hin Hnd. simpl. unfold remove_task.
  pose proof (filter_id_member _ _ Hnd Hin) as Hone.
  split.
  { assert (length (List.filter (λ t, bool_decide (id t = id T)) (tasks st))
            + length (List.filter (λ t, negb (bool_decide (id t = id T))) (tasks st))
            = length (tasks st))%nat as Hlen.
    { clear. induction (tasks st) as [| t l IH]; [done |]. simpl.
      destruct (bool_decide (id t = id T)); simpl; lia. }
    rewrite Hone in Hlen. simpl in Hlen. lia. }
  split.
  { unfold find_task. clear. induction (tasks st) as [| t l IH]; [done |]. simpl.
    destruct (bool_decide (id t = id T)) eqn:Hk; simpl; [done |]. by rewrite Hk. }
  split.
  { intros column. unfold KanbanColumn.filteredTasks. clear.
    induction (tasks st) as [| t l IH]; [done |]. simpl.
    destruct (bool_decide (id t = id T)) eqn:Hk,
             (bool_decide (status t = column)) eqn:Hc; simpl;
      rewrite ?Hk, ?Hc; simpl; by rewrite ?IH. }
  split.
  { intros column. unfold KanbanColumn.filteredTasks.
    assert (List.filter (λ t, bool_decide (id t = id T))
              (List.filter (λ task, bool_decide (status task = column)) (tasks st))
            = List.filter (λ task, bool_decide (status task = column))
                (List.filter (λ t, bool_decide (id t = id T)) (tasks st))) as ->.
    { clear. induction (tasks st) as [| t l IH]; [done |]. simpl.
      destruct (bool_decide (id t = id T)) eqn:Hk,
               (bool_decide (status t = column)) eqn:Hc; simpl;
        rewrite ?Hk, ?Hc; simpl; by rewrite ?IH. }
    rewrite Hone. simpl.
    destruct (decide (column = status T)) as [-> | Hc].
    - by rewrite !bool_decide_eq_true_2.
    - rewrite !bool_decide_eq_false_2; [done | done | congruence]. }
  unfold setTasks. simpl. f_equal.
  clear. induction (tasks st) as [| t l IH]; [done |]. simpl.
  destruct (bool_decide (id t = id T)) eqn:Hk; simpl; [done |].
  rewrite Hk. simpl. by rewrite IH.
Qed.

Lemma delete_removes_one_card_witness :
  tasks (handleTaskDelete_resume 1 (Js.Resolved ()) Sample.board) = [Sample.task 2 DONE]
  ∧ (length (tasks (handleTaskDelete_resume 1 (Js.Resolved ()) Sample.board)) + 1
     = length (tasks Sample.board))%nat.
Proof.
  split; [reflexivity |].
  apply (delete_removes_one_card Sample.board (Sample.task 1 TO_DO)).
  - simpl. apply elem_of_cons. by left.
  - simpl. apply (bool_decide_unpack (NoDup [1; 2])). vm_compute. exact I.
Defined.

(** X13.  For a card shown in a column (ids are unique), the column's
    own [handleTaskMove] does exactly what the board's does: choosing the
    column's status issues no request and changes nothing, choosing
    another status starts the optimistic move. *)
Theorem column_guard_agrees
    (column newStatus : TaskStatus) (rendered : list Task) (T : Task) (st : State) :
  T ∈ KanbanColumn.filteredTasks column rendered → NoDup (id <$> rendered) →
  KanbanColumn.handleTaskMove column rendered (id T) newStatus st
  = handleTaskMove_begin rendered (id T) newStatus st
  ∧ handleTaskMove_begin rendered (id T) newStatus st
    = if bool_decide (newStatus = column) then (st, None)
      else (setTasks (move_status (id T) newStatus) st,
            Some {| pm_taskId := id T; pm_task := T;
                    pm_request := (id T, status_only newStatus) |}).
Proof.
  intros Hin Hnd.
  apply list_elem_of_In, filter_In in Hin as [Hin Hs].
  apply list_elem_of_In in Hin. apply bool_decide_eq_true_1 in Hs.
  unfold KanbanColumn.handleTaskMove, handleTaskMove_begin.
  rewrite find_task_member by done. rewrite Hs.
  destruct (decide (newStatus = column)) as [-> | Hne].
  - by rewrite !bool_decide_eq_true_2.
  - rewrite (bool_decide_eq_false_2 (newStatus = column)) by done.
    rewrite (bool_decide_eq_false_2 (column = newStatus)) by congruence. done.
Qed.

Lemma column_guard_agrees_witness :
  KanbanColumn.handleTaskMove TO_DO (tasks Sample.board) 1 TO_DO Sample.board
  = handleTaskMove_begin (tasks Sample.board) 1 TO_DO Sample.board.
Proof.
  apply (column_guard_agrees TO_DO TO_DO (tasks Sample.board) (Sample.task 1 TO_DO)
           Sample.board).
  - simpl. apply elem_of_cons. by left.
  - simpl. apply (bool_decide_unpack (NoDup [1; 2])). vm_compute. exact I.
Defined.

(** X14.  The shape test of [fetchTasks] throws for no value: an array is
    taken as it is, an object gives its [results] when that is an array,
    else its [data] when that is an array, and every other value gives
    the empty list.  A fetch that resolves therefore never sets the
    error message, whatever it resolves with: an unrecognised value
    shows as an empty board. *)
Theorem fetchTasks_try_never_throws (tasksData : Js.Value Task) (st : State) :
  fetchTasks_try tasksData
  = Js.Resolved
      match tasksData with
      | Js.Array l => l
      | Js.Object m =>
          match m !! "results" with
          | Some (Js.Array l) => l
          | _ => match m !! "data" with
                 | Some (Js.Array l) => l
                 | _ => []
                 end
          end
      | _ => []
      end
  ∧ error (fetchTasks_resume (Js.Resolved tasksData) st) = error st
  ∧ loading (fetchTasks_resume (Js.Resolved tasksData) st) = false
  ∧ Js.Resolved (tasks (fetchTasks_resume (Js.Resolved tasksData) st))
    = fetchTasks_try tasksData.
Proof.
  assert (∃ l, fetchTasks_try tasksData = Js.Resolved l
               ∧ l = match tasksData with
                     | Js.Array l => l
                     | Js.Object m =>
                         match m !! "results" with
                         | Some (Js.Array l) => l
                         | _ => match m !! "data" with
                                | Some (Js.Array l) => l
                                | _ => []
                                end
                         end
                     | _ => []
                     end) as (l & Hl & Hshape).
  { unfold fetchTasks_try.
    destruct tasksData as [| | b | n | s | l | m]; simpl;
      try (by eexists); try (destruct b; by eexists);
      try (case_bool_decide; by eexists).
    destruct (m !! "results") as [[| | [] | n | s | l |] |]; simpl;
      try (by eexists); try (case_bool_decide; simpl);
      destruct (m !! "data") as [[| | [] | n' | s' | l' |] |]; simpl;
      try (by eexists); case_bool_decide; by eexists. }
  unfold fetchTasks_resume. simpl. rewrite Hl, <- Hshape. done.
Qed.

End BoardMoves.

(** ** The project context *)

Section Projects.

Import ProjectContext.

(** X15.  Let the selected project, if any, be one of the listed ones, and
    let the functions run in the render of that state.  Then after
    [createProject], [updateProject] or [deleteProject], whether the
    request succeeded or not, the selected project is still one of the
    listed ones.  After a confirmed deletion no listed project has the
    deleted id, and the selection is dropped exactly when it had that
    id. *)
Theorem current_project_stays_listed (st : State) (id : Z) :
  (∀ p, currentProject st = Some p → p ∈ projects st) →
  (∀ r p, currentProject (createProject_resume r st).2 = Some p →
          p ∈ projects (createProject_resume r st).2)
  ∧ (∀ r p, currentProject (updateProject_resume (currentProject st) id r st).2 = Some p →
            p ∈ projects (updateProject_resume (currentProject st) id r st).2)
  ∧ (∀ r p, currentProject (deleteProject_resume (currentProject st) id r st).2 = Some p →
            p ∈ projects (deleteProject_resume (currentProject st) id r st).2)
  ∧ Forall (λ p, Project.id p ≠ id)
      (projects (deleteProject_resume (currentProject st) id (Js.Resolved ()) st).2)
  ∧ currentProject (deleteProject_resume (currentProject st) id (Js.Resolved ()) st).2
    = (if current_is (currentProject st) id then None else currentProject st).
Proof.
  intros Hinv. split; [| split; [| split; [| split]]].
  - intros [newProject | e] p; simpl; intros Hp; [| by apply Hinv].
    apply elem_of_app. left. by apply Hinv.
  - intros [updatedProject | e] p; [| simpl; by apply Hinv].
    assert (currentProject (updateProject_resume (currentProject st) id
                              (Js.Resolved updatedProject) st).2
            = if current_is (currentProject st) id
              then Some updatedProject else currentProject st) as ->.
    { simpl. by destruct (current_is (currentProject st) id). }
    assert (projects (updateProject_resume (currentProject st) id
                        (Js.Resolved updatedProject) st).2
            = (λ project, if bool_decide (Project.id project = id)
                          then updatedProject else project) <$> projects st) as ->.
    { simpl. by destruct (current_is (currentProject st) id). }
    unfold current_is. destruct (currentProject st) as [c |] eqn:Hc; [| done].
    specialize (Hinv c eq_refl).
    case_bool_decide as Hid; intros [= <-]; apply list_elem_of_fmap; exists c.
    + by rewrite bool_decide_eq_true_2.
    + by rewrite bool_decide_eq_false_2.
  - intros [[] | e] p; [| simpl; by apply Hinv].
    assert (currentProject (deleteProject_resume (currentProject st) id
                              (Js.Resolved ()) st).2
            = if current_is (currentProject st) id
              then None else currentProject st) as ->.
    { simpl. by destruct (current_is (currentProject st) id). }
    assert (projects (deleteProject_resume (currentProject st) id (Js.Resolved ()) st).2
            = List.filter (λ project, negb (bool_decide (Project.id project = id)))
                (projects st)) as ->.
    { simpl. by destruct (current_is (currentProject st) id). }
    unfold current_is. destruct (currentProject st) as [c |] eqn:Hc; [| done].
    specialize (Hinv c eq_refl).
    case_bool_decide as Hid; [done |]. intros [= <-].
    apply list_elem_of_In, filter_In.
    split; [by apply list_elem_of_In |].
    by rewrite bool_decide_eq_false_2.
  - simpl. apply Forall_forall. intros p Hp.
    assert (p ∈ List.filter (λ project, negb (bool_decide (Project.id project = id)))
                  (projects st)) as Hp'.
    { by destruct (current_is (currentProject st) id). }
    apply list_elem_of_In, filter_In in Hp' as [_ Hk].
    apply negb_true_iff, bool_decide_eq_false_1 in Hk. done.
  - simpl. by destruct (current_is (currentProject st) id).
Qed.

Lemma current_project_stays_listed_witness :
  currentProject (deleteProject_resume (currentProject Sample.project_list) 7
                    (Js.Resolved ()) Sample.project_list).2 = None
  ∧ Forall (λ p, Project.id p ≠ 7)
      (projects (deleteProject_resume (currentProject Sample.project_list) 7
                   (Js.Resolved ()) Sample.project_list).2).
Proof.
  destruct (current_project_stays_listed Sample.project_list 7) as (_ & _ & _ & H1 & H2).
  - intros p Hp. injection Hp as <-. simpl. apply elem_of_cons. by left.
  - split; [exact H2 | exact H1].
Defined.

(** X16.  When the server answers an update of project [id] with a
    project of that id, the list keeps its ids, length and order: every
    listed project with that id is now the server's version, and the
    others are untouched.  When the update is rejected the list and the
    selection are as they were.  In both cases [isLoading] ends false. *)
Theorem updateProject_keeps_ids
    (rendered_current : option Project.t) (id : Z) (updatedProject : Project.t)
    (st : State) (e : Js.Error) :
  Project.id updatedProject = id →
  Project.id <$> projects (updateProject_resume rendered_current id
                             (Js.Resolved updatedProject) st).2
  = Project.id <$> projects st
  ∧ (∀ i p, projects st !! i = Some p →
            projects (updateProject_resume rendered_current id
                        (Js.Resolved updatedProject) st).2 !! i
            = Some (if bool_decide (Project.id p = id) then updatedProject else p))
  ∧ projects (updateProject_resume rendered_current id (Js.Rejected e) st).2 = projects st
  ∧ currentProject (updateProject_resume rendered_current id (Js.Rejected e) st).2
    = currentProject st
  ∧ isLoading (updateProject_resume rendered_current id (Js.Resolved updatedProject) st).2
    = false
  ∧ isLoading (updateProject_resume rendered_current id (Js.Rejected e) st).2 = false.
Proof.
  intros Hid.
  assert (projects (updateProject_resume rendered_current id
                      (Js.Resolved updatedProject) st).2
          = (λ project, if bool_decide (Project.id project = id)
                        then updatedProject else project) <$> projects st) as ->.
  { simpl. by destruct (current_is rendered_current id). }
  split.
  { rewrite <- list_fmap_compose. apply list_fmap_ext. intros i p _. simpl.
    case_bool_decide; congruence. }
  split.
  { intros i p Hi. by rewrite list_lookup_fmap, Hi. }
  simpl. by destruct (current_is rendered_current id).
Qed.

Lemma updateProject_keeps_ids_witness :
  Project.id <$> projects (updateProject_resume None 7
                             (Js.Resolved (Sample.listed_project 7 "Renamed"))
                             Sample.project_list).2
  = [7; 8].
Proof.
  apply (updateProject_keeps_ids None 7 (Sample.listed_project 7 "Renamed")
           Sample.project_list Js.TypeError).
  reflexivity.
Defined.

Variable refresh_endpoint : ApiClient.Browser → string → Js.Outcome string.
Variable server : ApiClient.Browser → ApiClient.RequestConfig
                  → ApiClient.Reply (Js.Value Project.t).

(** X17.  [fetchProjects] always returns, with [isLoading] false and the
    selected project untouched.  The list afterwards is what
    [getProjects] resolved with, and the empty list when it was
    rejected: a failed load shows as no projects, and a selection made
    before may then name a project that is no longer listed. *)
Theorem fetchProjects_replaces_list (n : nat) (st : State) (w : ApiClient.Browser) :
  ∃ r w' st',
    ApiClient.getProjects refresh_endpoint server (S (S n)) w = Some (r, w')
    ∧ fetchProjects refresh_endpoint server (S (S n)) st w = Some (st', w')
    ∧ isLoading st' = false
    ∧ currentProject st' = currentProject st
    ∧ projects st' = match r with Js.Resolved l => l | Js.Rejected _ => [] end.
Proof.
  unfold fetchProjects, ApiClient.getProjects, ApiClient.then_.
  destruct (client_returns server refresh_endpoint n
              (ApiClient.request "get" "/projects/" []) w) as (r & w' & ->).
  destruct r as [[status body] | e].
  - destruct (ApiClient.getProjects_return body) as [l | e]; by eexists _, _, _.
  - by eexists _, _, _.
Qed.

End Projects.

(** The admin route at an authenticated administrator. *)
Lemma logout_ends_session_witness :
  ProtectedAdminRoute.render Sample.admin_session = ProtectedAdminRoute.Children
  ∧ ProtectedAdminRoute.render
      (AuthContext.logout Sample.admin_session Sample.browser_logged_in).1
    = ProtectedAdminRoute.Navigate "/admin-login".
Proof.
  destruct (logout_ends_session Sample.refresh_rejected Sample.me_broken 0
              Sample.admin_session Sample.browser_logged_in)
    as (_ & _ & _ & _ & _ & _ & H1 & _ & H2).
  split; [| exact H1].
  apply H2. split; [reflexivity |].
  eexists. split; [reflexivity |]. by left.
Defined.

(** ** The board: what a drop never does *)

Section DropFrame.

Import Board.

(** X18.  For a drop outside every droppable or over a column, whatever
    the dragged id and the state, the part of [handleDragEnd] that runs
    at the drop clears the overlay, leaves the error and the loading
    flag as they were, and neither adds, removes nor reorders tasks.
    When a task with the dragged id is in the rendered collection and
    the drop is over the column of another status, it issues a request
    for the dragged id whose body has [status] set to the column's
    status and no other field, and writes that status in the
    collection; in every other case it issues no request and the
    collection is unchanged. *)
Theorem drop_frame (rendered : list Task) (event : DragEndEvent) (st : State) :
  activeTask (handleDragEnd_begin rendered event st).1 = None
  ∧ error (handleDragEnd_begin rendered event st).1 = error st
  ∧ loading (handleDragEnd_begin rendered event st).1 = loading st
  ∧ id <$> tasks (handleDragEnd_begin rendered event st).1 = id <$> tasks st
  ∧ match (handleDragEnd_begin rendered event st).2 with
    | None =>
        tasks (handleDragEnd_begin rendered event st).1 = tasks st
        ∧ (over event = None
           ∨ find_task (active_id event) rendered = None
           ∨ status <$> find_task (active_id event) rendered = over event)
    | Some p =>
        ∃ newStatus,
          over event = Some newStatus
          ∧ find_task (active_id event) rendered = Some (pm_task p)
          ∧ status (pm_task p) ≠ newStatus
          ∧ pm_taskId p = active_id event
          ∧ pm_request p
            = (active_id event,
               {| upd_title := None; upd_description := None;
                  upd_status := Some newStatus; upd_priority := None;
                  upd_assigned_to := None; upd_due_date := None |})
          ∧ tasks (handleDragEnd_begin rendered event st).1
            = move_status (active_id event) newStatus (tasks st)
    end.
Proof.
  unfold handleDragEnd_begin.
  destruct (over event) as [newStatus |]; [| repeat split; by left].
  destruct (find_task (active_id event) rendered) as [task |];
    [| repeat split; right; by left].
  case_bool_decide as Hs.
  - repeat split. right; right. simpl. by rewrite Hs.
  - simpl. repeat split; [apply move_status_ids |]. by exists newStatus.
Qed.

End DropFrame.
